(** * go-discogs: the rate limit tracker and the retrying call loop

    Shallow embedding of [src/ratelimit.go] (type [RateLimit], its methods
    [Update], [Get], [Call] and the inner loop [call]) together with the
    small part of Go's [time], [errors] and [context] packages the loop
    relies on. *)

From Stdlib Require Import ZArith List Bool Lia String Ascii.
Import ListNotations.
Open Scope Z_scope.
Set Implicit Arguments.

(** ** Go's [time] package: durations and instants *)

Module GoTime.

(** [time.Duration] is an [int64] count of nanoseconds. *)
Definition Duration := Z.

Definition minDuration : Duration := - 2 ^ 63.
Definition maxDuration : Duration := 2 ^ 63 - 1.

(** Two's complement reduction of an integer to the [int64] range. *)
Definition wrap64 (z : Z) : Z := (z + 2 ^ 63) mod 2 ^ 64 - 2 ^ 63.

(** [d * k] and [a + b] on [int64], as Go computes them (silent wrap). *)
Definition mul64 (d k : Duration) : Duration := wrap64 (d * k).
Definition add64 (a b : Duration) : Duration := wrap64 (a + b).

Definition Nanosecond : Duration := 1.
Definition Millisecond : Duration := 1000000 * Nanosecond.
Definition Second : Duration := 1000 * Millisecond.
Definition Minute : Duration := 60 * Second.

(** A [time.Time] is represented by the number of nanoseconds elapsed
    since the zero [Time] (January 1, year 1, 00:00:00 UTC). *)
Definition Time := Z.

Definition zeroTime : Time := 0.

(** Seconds between the zero [Time] and the Unix epoch (the constant
    [unixToInternal] of the [time] package), in nanoseconds. *)
Definition unixEpoch : Time := 62135596800 * Second.

(** [t.Sub(u)]: the duration [t - u], replaced by the maximum (or
    minimum) duration when it does not fit. *)
Definition Sub (t u : Time) : Duration :=
  if maxDuration <? t - u then maxDuration
  else if t - u <? minDuration then minDuration
  else t - u.

End GoTime.
Import GoTime.

(** ** Go's [error] values and [errors.Is] *)

Module GoErrors.

(** A non-nil error value.  [errorValue a] is an error without an
    [Unwrap] method, identified by [a] (a pointer such as [&Error{...}]
    or [io.ErrUnexpectedEOF]); [wrapError a e] is an error identified
    by [a] whose [Unwrap] method returns [e] (what [fmt.Errorf] builds
    for the verb [%w]). *)
Inductive errval : Type :=
| errorValue (a : string)
| wrapError (a : string) (e : errval).

(** The interface type [error]: [None] is [nil]. *)
Definition error := option errval.

Fixpoint errval_eqb (x y : errval) : bool :=
  match x, y with
  | errorValue a, errorValue b => String.eqb a b
  | wrapError a e, wrapError b f => String.eqb a b && errval_eqb e f
  | _, _ => false
  end.

(** [err == target] on interface values. *)
Definition error_eqb (x y : error) : bool :=
  match x, y with
  | None, None => true
  | Some a, Some b => errval_eqb a b
  | _, _ => false
  end.

(** The loop of [errors.Is]: compare, then follow [Unwrap]. *)
Fixpoint is_chain (e target : errval) : bool :=
  if errval_eqb e target then true
  else match e with
       | errorValue _ => false
       | wrapError _ inner => is_chain inner target
       end.

(** [errors.Is(err, target)]. *)
Definition Is (err target : error) : bool :=
  match err, target with
  | Some e, Some t => is_chain e t
  | _, _ => error_eqb err target
  end.

End GoErrors.
Import GoErrors.

(** ** The rate limit record *)

(** [sync.Mutex], seen from one thread of control: held or free. *)
Inductive Mutex : Type := Unlocked | Locked.

(** [type RateLimit struct].  The fields of Go type [int] hold whatever
    integer they were given. *)
Record RateLimit : Type := mkRateLimit {
  mu : Mutex;
  total : Z;
  used : Z;
  remaining : Z;
  updated : Time
}.

(** The zero value [RateLimit{}]. *)
Definition zeroRateLimit : RateLimit :=
  mkRateLimit Unlocked 0 0 0 zeroTime.

(** [r.mu.Lock()] and [r.mu.Unlock()].  Both methods of [RateLimit]
    release the mutex before they return, so a sequential caller always
    acquires it at once. *)
Definition Lock (r : RateLimit) : RateLimit :=
  mkRateLimit Locked (total r) (used r) (remaining r) (updated r).

Definition Unlock (r : RateLimit) : RateLimit :=
  mkRateLimit Unlocked (total r) (used r) (remaining r) (updated r).

(** The four data fields, as a tuple. *)
Definition Snapshot : Type := Z * Z * Z * Time.

Definition snapshot (r : RateLimit) : Snapshot :=
  (total r, used r, remaining r, updated r).

(** [const minimumRateLimitDelay = 2500 * time.Millisecond]. *)
Definition minimumRateLimitDelay : Duration := 2500 * Millisecond.

(** What the loop asks of its environment, in order. *)
Inductive Event : Type :=
| EvSleep (d : Duration) (r : error)   (* sleep(ctx, d) returned r *)
| EvWork (r : error).                  (* f() returned r *)

(** The local variables [delay] and [first] of [call]. *)
Record Locals : Type := mkLocals {
  delay : Duration;
  first : bool
}.

(** How one turn of the [for] loop ends. *)
Inductive Step : Type :=
| Return (err : error)
| Next.

(** What the [select] statement of [Call]'s sleep closure received. *)
Inductive Selected : Type :=
| CtxDone (e : errval)    (* <-ctx.Done(); ctx.Err() is then the non-nil e *)
| TimerFired.             (* <-t.C *)

Section Limiter.

(** The state the closures [f] and [sleep] capture. *)
Variable St : Type.

(** [context.Context]. *)
Variable Context : Type.

(** The sentinel compared against by [call]; its declaration is not
    part of the available sources, so it is left arbitrary. *)
Variable ErrTooManyRequests : error.

(** The program state: the wall clock, the one [RateLimit] behind the
    pointer receiver, and the captured state of the closures. *)
Record World : Type := mkWorld {
  clock : Time;
  limiter : RateLimit;
  env : St
}.

Definition set_limiter (r : RateLimit) (w : World) : World :=
  mkWorld (clock w) r (env w).

(** [time.Now()]. *)
Definition Now (w : World) : Time := clock w.

(** [func (r *RateLimit) Update(total, used, remaining int)]. *)
Definition Update (total' used' remaining' : Z) (w : World) : World :=
  let r := Lock (limiter w) in
  let r := mkRateLimit (mu r) total' (used r) (remaining r) (updated r) in
  let r := mkRateLimit (mu r) (total r) used' (remaining r) (updated r) in
  let r := mkRateLimit (mu r) (total r) (used r) remaining' (updated r) in
  let r := mkRateLimit (mu r) (total r) (used r) (remaining r) (Now w) in
  set_limiter (Unlock r) w.

(** [func (r *RateLimit) Get() (total, used, remaining int, updated time.Time)]. *)
Definition Get (w : World) : Snapshot * World :=
  let r := Lock (limiter w) in
  let total' := total r in
  let used' := used r in
  let remaining' := remaining r in
  let updated' := updated r in
  ((total', used', remaining', updated'), set_limiter (Unlock r) w).

(** The closures handed to [call]. *)
Definition Work : Type := World -> error * World.
Definition Sleeper : Type := Context -> Duration -> World -> error * World.

(** The condition of the [if] at the head of the loop body:
    [!first || time.Now().Sub(when) < 10*time.Second && remaining <= 1]. *)
Definition must_pause (l : Locals) (now when : Time) (remaining' : Z) : bool :=
  negb (first l) || ((Sub now when <? 10 * Second) && (remaining' <=? 1)).

(** Whether a turn of the loop entered in state [w] with locals [l]
    takes the branch that sleeps. *)
Definition pause_due (l : Locals) (w : World) : bool :=
  let '((_, _, remaining', when), w) := Get w in
  must_pause l (Now w) when remaining'.

Section Loop.

Variable ctx : Context.
Variable f : Work.
Variable sleep : Sleeper.

(** Lines 83 to 87: call [f] and classify its result. *)
Definition attempt (l : Locals) (w : World) (evs : list Event)
  : Locals * World * list Event * Step :=
  let '(err, w) := f w in
  if negb (Is err ErrTooManyRequests) then
    (l, w, evs ++ [EvWork err], Return err)
  else
    (mkLocals (delay l) false, w, evs ++ [EvWork err], Next).

(** One turn of the [for] loop of [call]. *)
Definition iteration (l : Locals) (w : World)
  : Locals * World * list Event * Step :=
  let '((_, _, remaining', when), w) := Get w in
  if must_pause l (Now w) when remaining' then
    let '(err, w) := sleep ctx (delay l) w in
    match err with
    | Some _ => (l, w, [EvSleep (delay l) err], Return err)
    | None =>
        let slept_for := [EvSleep (delay l) None] in
        let l := mkLocals (mul64 (delay l) 2) (first l) in
        attempt l w slept_for
    end
  else attempt l w [].

(** What a finished invocation leaves behind. *)
Record Exit : Type := mkExit {
  result : error;
  final : World;
  events : list Event;
  locals : Locals
}.

Definition after (evs : list Event) (x : Exit) : Exit :=
  mkExit (result x) (final x) (evs ++ events x) (locals x).

(** The [for] loop, run for at most [fuel] turns. *)
Fixpoint call_loop (fuel : nat) (l : Locals) (w : World) : option Exit :=
  match fuel with
  | O => None
  | S k =>
      let '(l', w', evs, st) := iteration l w in
      match st with
      | Return err => Some (mkExit err w' evs l')
      | Next => option_map (after evs) (call_loop k l' w')
      end
  end.

(** [func (r *RateLimit) call(ctx, f, sleep) error]. *)
Definition call (fuel : nat) (w : World) : option Exit :=
  call_loop fuel (mkLocals minimumRateLimitDelay true) w.

End Loop.

(** The Go runtime's part in the [select] of [Call]: which of
    [ctx.Done()] and the timer channel is received after the timer was
    reset to [d], and the state when that happens. *)
Variable wait : Context -> Duration -> World -> Selected * World.

(** The closure [sleep] built by [Call]. *)
Definition Call_sleep : Sleeper := fun ctx d w =>
  match wait ctx d w with
  | (CtxDone e, w') => (Some e, w')
  | (TimerFired, w') => (None, w')
  end.

(** [func (r *RateLimit) Call(ctx, f) error].  The timer [t] is only
    ever used inside the closure. *)
Definition Call (ctx : Context) (f : Work) (fuel : nat) (w : World)
  : option Exit :=
  call ctx f Call_sleep fuel w.

End Limiter.

(** ** Observations on a run *)

(** The pauses that ran to completion, in order. *)
Fixpoint pauses (evs : list Event) : list Duration :=
  match evs with
  | [] => []
  | EvSleep d None :: rest => d :: pauses rest
  | _ :: rest => pauses rest
  end.

(** The results of the invocations of [f], in order. *)
Fixpoint works (evs : list Event) : list error :=
  match evs with
  | [] => []
  | EvWork r :: rest => r :: works rest
  | _ :: rest => works rest
  end.

(** Total time, as an exact integer of nanoseconds. *)
Definition total_time (ds : list Duration) : Z := fold_right Z.add 0 ds.

(** The successive values of [delay]: [n] pauses starting from [d],
    each followed by [delay *= 2]. *)
Fixpoint backoff (d : Duration) (n : nat) : list Duration :=
  match n with
  | O => []
  | S k => d :: backoff (mul64 d 2) k
  end.

(** The locals at the entry of [call]. *)
Definition entry : Locals := mkLocals minimumRateLimitDelay true.

(** The number of pauses (one or none) that [call], entered in state
    [w], takes before its first attempt. *)
Definition preventive (St : Type) (w : World St) : nat :=
  if pause_due entry w then 1%nat else 0%nat.

(** ** A concrete environment

    Closures in the manner of [TestRateLimit_Call]: the work replays a
    list of results (and succeeds once the list is used up), the sleep
    adds the requested duration to a counter and returns at once. *)

Record Script : Type := mkScript {
  attempts : list error;
  slept : Duration
}.

Definition request : Work Script := fun w =>
  match attempts (env w) with
  | [] => (None, w)
  | err :: rest =>
      (err, mkWorld (clock w) (limiter w) (mkScript rest (slept (env w))))
  end.

Definition mock_sleep : Sleeper Script unit := fun _ d w =>
  (None,
   mkWorld (clock w) (limiter w)
     (mkScript (attempts (env w)) (add64 (slept (env w)) d))).

(** A sentinel to run the examples with. *)
Definition tooManyRequests : errval := errorValue "too many requests".

(** A context that is already canceled: every [select] receives from
    [ctx.Done()]. *)
Definition canceled : errval := errorValue "context canceled".

Definition wait_canceled : unit -> Duration -> World Script -> Selected * World Script :=
  fun _ _ w => (CtxDone canceled, w).

(** A timer that always fires first, the clock having advanced by the
    (non-negative part of the) requested duration. *)
Definition wait_timer : unit -> Duration -> World Script -> Selected * World Script :=
  fun _ d w => (TimerFired, mkWorld (clock w + Z.max 0 d) (limiter w) (env w)).

(** A state whose snapshot was taken [age] nanoseconds ago. *)
Definition world_at (total' used' remaining' : Z) (age : Duration)
  (script : list error) : World Script :=
  mkWorld (unixEpoch + age)
    (mkRateLimit Unlocked total' used' remaining' unixEpoch)
    (mkScript script 0).
(** The script of a work that is rejected [n] times and then succeeds. *)
Definition rejected_times (n : nat) : list error :=
  repeat (Some tooManyRequests) n ++ [None].

(** An error that wraps the sentinel, as [fmt.Errorf] would build it with
    the verb [%w]. *)
Definition wrapped : error := Some (wrapError "request failed" tooManyRequests).

(** How many results at the head of a script match [target]: the number
    of rejections [request] will still report. *)
Fixpoint rejections (target : error) (script : list error) : nat :=
  match script with
  | [] => O
  | err :: rest => if Is err target then S (rejections target rest) else O
  end.

(** The number of rejections a scripted state still holds. *)
Definition script_rank (target : error) (s : Script) : nat :=
  rejections target (attempts s).

(** The events of one turn of the loop. *)
Definition events_of (St : Type)
  (t : Locals * World St * list Event * Step) : list Event :=
  snd (fst t).

(** ** Go's [strconv] package: [Atoi] and [Itoa] on a 64-bit [int] *)

Module GoStrconv.

(** The two errors a conversion reports. *)
Inductive NumError : Type := ErrSyntax | ErrRange.

Definition maxUint64 : Z := 2 ^ 64 - 1.

Definition is_digit (c : ascii) : bool :=
  (48 <=? nat_of_ascii c)%nat && (nat_of_ascii c <=? 57)%nat.

Definition digit_of (c : ascii) : Z := Z.of_nat (nat_of_ascii c) - 48.

(** The loop of [ParseUint(s, 10, 64)], entered with [n] accumulated.
    A character that is no decimal digit is a syntax error; a value that
    leaves 64 bits ends the loop at once with the largest value. *)
Fixpoint parse_digits (n : Z) (s : string) : Z * option NumError :=
  match s with
  | EmptyString => (n, None)
  | String c rest =>
      if is_digit c then
        if maxUint64 / 10 + 1 <=? n then (maxUint64, Some ErrRange)
        else
          let n1 := n * 10 + digit_of c in
          if maxUint64 <? n1 then (maxUint64, Some ErrRange)
          else parse_digits n1 rest
      else (0, Some ErrSyntax)
  end.

Definition ParseUint (s : string) : Z * option NumError :=
  match s with
  | EmptyString => (0, Some ErrSyntax)
  | _ => parse_digits 0 s
  end.

(** [ParseInt(s, 10, 0)]. *)
Definition ParseInt (s : string) : Z * option NumError :=
  match s with
  | EmptyString => (0, Some ErrSyntax)
  | String c rest =>
      let neg := Ascii.eqb c "-" in
      let s' := if Ascii.eqb c "+" || Ascii.eqb c "-" then rest else s in
      let '(un, err) := ParseUint s' in
      match err with
      | Some ErrSyntax => (0, err)
      | _ =>
          if negb neg && (2 ^ 63 <=? un) then (2 ^ 63 - 1, Some ErrRange)
          else if neg && (2 ^ 63 <? un) then (- 2 ^ 63, Some ErrRange)
          else
            let n := wrap64 un in
            (if neg then wrap64 (- n) else n, None)
      end
  end.

(** [Atoi(s)]: the value and error of [ParseInt(s, 10, 0)] (the fast
    path for short strings computes the same). *)
Definition Atoi (s : string) : Z * option NumError := ParseInt s.

Definition digit_char (d : Z) : ascii := ascii_of_nat (Z.to_nat (48 + d)).

(** The decimal digits of [n >= 0], most significant first, put in
    front of [acc]. *)
Fixpoint digits (fuel : nat) (n : Z) (acc : string) : string :=
  match fuel with
  | O => acc
  | S k =>
      let acc := String (digit_char (n mod 10)) acc in
      if n / 10 =? 0 then acc else digits k (n / 10) acc
  end.

(** [Itoa(i)]: the decimal form of [i], with a minus sign when
    negative; an [int] has at most 19 digits. *)
Definition Itoa (i : Z) : string :=
  if i <? 0 then String "-" (digits 20 (- i) EmptyString)
  else digits 20 i EmptyString.

(** Whether a string begins with a decimal digit. *)
Definition starts_with_digit (s : string) : bool :=
  match s with
  | EmptyString => false
  | String c _ => is_digit c
  end.

End GoStrconv.
Import GoStrconv.

(** ** More observations on a run *)

(** The durations of all the sleeps asked for, cut short or not. *)
Fixpoint asked (evs : list Event) : list Duration :=
  match evs with
  | [] => []
  | EvSleep d _ :: rest => d :: asked rest
  | EvWork _ :: rest => asked rest
  end.

(** ** The client: [currency], [request] and [New] *)

Module Discogs.

Local Open Scope string_scope.

(** [const discogsAPI]. *)
Definition discogsAPI : string := "https://api.discogs.com".

(** The two errors declared in the sources, [&Error{...}] each. *)
Definition ErrCurrencyNotSupported : errval :=
  errorValue "currency does not supported".
Definition ErrUserAgentInvalid : errval := errorValue "invalid user-agent".

(** The labels of the first [case] of [currency]. *)
Definition supported_currencies : list string :=
  ["USD"; "GBP"; "EUR"; "CAD"; "AUD"; "JPY"; "CHF"; "MXN"; "BRL"; "NZD";
   "SEK"; "ZAR"]%string.

(** [func currency(c string) (string, error)]. *)
Definition currency (c : string) : string * error :=
  if existsb (String.eqb c) supported_currencies then (c, None)
  else if String.eqb c "" then ("USD"%string, None)
  else (""%string, Some ErrCurrencyNotSupported).

(** [http.Header], a map from a key to the values added under it.  The
    keys used by the client are in canonical form already. *)
Definition Header : Type := list (string * list string).

(** [h.Add(key, value)]. *)
Fixpoint Header_Add (key value : string) (h : Header) : Header :=
  match h with
  | [] => [(key, [value])]
  | (k, vs) :: rest =>
      if String.eqb k key then (k, (vs ++ [value])%list) :: rest
      else (k, vs) :: Header_Add key value rest
  end.

(** [h.Get(key)]: the first value under [key], or the empty string. *)
Fixpoint Header_Get (key : string) (h : Header) : string :=
  match h with
  | [] => ""%string
  | (k, vs) :: rest =>
      if String.eqb k key then hd ""%string vs else Header_Get key rest
  end.

(** The status codes [request] tells apart. *)
Definition StatusOK : Z := 200.
Definition StatusUnauthorized : Z := 401.
Definition StatusTooManyRequests : Z := 429.

(** The part of an [http.Response] that [request] reads. *)
Record Response (Body : Type) : Type := mkResponse {
  StatusCode : Z;
  Status : string;
  RespHeader : Header;
  RespBody : Body
}.

(** A [*RateLimit]: nil, or the address of the one record of the state. *)
Inductive RateLimitPtr : Type := nilRateLimit | theRateLimit.

(** [type Options struct]. *)
Record Options (HttpClient : Type) : Type := mkOptions {
  URL : string;
  Currency : string;
  UserAgent : string;
  Token : string;
  Client : option HttpClient;
  OptRateLimit : RateLimitPtr
}.

(** The sorting keys of [validItemsByFolderSort]. *)
Definition validItemsByFolderSort : list string :=
  [""; "label"; "artist"; "title"; "catno"; "format"; "rating"; "added";
   "year"]%string.

Section Client.

Variable St : Type.
Variable Context : Type.

(** [http.Client], [url.Values], the body of a response and a decoded
    value ([nil] being [None]). *)
Variable HttpClient : Type.
Variable Values : Type.
Variable Body : Type.
Variable Value : Type.

(** Sentinels whose declarations are not part of the available sources. *)
Variable ErrTooManyRequests : error.
Variable ErrUnauthorized : error.
Variable ErrInvalidUsername : error.
Variable ErrInvalidSortKey : error.
Variable ErrInvalidReleaseID : error.

(** The standard library and the network, as [request] uses them:
    [http.NewRequestWithContext] (its error only), [params.Encode()],
    [client.Do], [ioutil.ReadAll] and [json.Unmarshal] into the value
    behind [resp]. *)
Variable NewRequestWithContext : Context -> string -> error.
Variable Encode : Values -> string.
Variable Do :
  HttpClient -> Context -> string -> Header -> World St ->
  (Response Body + errval) * World St.
Variable ReadAll : Body -> string * error.
Variable Unmarshal : string -> option Value -> option Value * error.

(** The value of [fmt.Errorf("unknown error: %s", status)]. *)
Definition unknown_error (status : string) : errval :=
  errorValue ("unknown error: " ++ status).

(** [func request(ctx, client, header, rl, path, params, resp) error];
    the value behind [resp] is returned beside the error. *)
Definition request (ctx : Context) (client : HttpClient) (header : Header)
  (rl : RateLimitPtr) (path : string) (params : Values)
  (resp : option Value) (w : World St)
  : (option Value * error) * World St :=
  match NewRequestWithContext ctx (path ++ "?" ++ Encode params) with
  | Some e => ((resp, Some e), w)
  | None =>
      match Do client ctx (path ++ "?" ++ Encode params) header w with
      | (inr e, w) => ((resp, Some e), w)
      | (inl response, w) =>
          let w :=
            match rl with
            | nilRateLimit => w
            | theRateLimit =>
                let total' :=
                  fst (Atoi (Header_Get "X-Discogs-Ratelimit"
                               (RespHeader response))) in
                let used' :=
                  fst (Atoi (Header_Get "X-Discogs-Ratelimit-Used"
                               (RespHeader response))) in
                let remaining' :=
                  fst (Atoi (Header_Get "X-Discogs-Ratelimit-Remaining"
                               (RespHeader response))) in
                Update total' used' remaining' w
            end in
          if negb (Z.eqb (StatusCode response) StatusOK) then
            if Z.eqb (StatusCode response) StatusUnauthorized then
              ((resp, ErrUnauthorized), w)
            else if Z.eqb (StatusCode response) StatusTooManyRequests then
              ((resp, ErrTooManyRequests), w)
            else ((resp, Some (unknown_error (Status response))), w)
          else
            let '(body, err) := ReadAll (RespBody response) in
            match err with
            | Some _ => ((resp, err), w)
            | None => (Unmarshal body resp, w)
            end
      end
  end.

(** [type requestFunc func(ctx, path, params, resp) error]. *)
Definition requestFunc : Type :=
  Context -> string -> Values -> option Value -> World St ->
  (option Value * error) * World St.

(** [type collectionService struct] and [newCollectionService]. *)
Record collectionService : Type := mkCollectionService {
  cs_request : requestFunc;
  cs_url : string
}.

Definition newCollectionService (req : requestFunc) (url : string)
  : collectionService :=
  mkCollectionService req url.

(** [type marketPlaceService struct] and [newMarketPlaceService]. *)
Record marketPlaceService : Type := mkMarketPlaceService {
  mp_request : requestFunc;
  mp_url : string;
  mp_currency : string
}.

Definition newMarketPlaceService (req : requestFunc) (url cur : string)
  : marketPlaceService :=
  mkMarketPlaceService req url cur.

(** The database and search services, whose constructors are outside
    the available sources. *)
Variable DatabaseService : Type.
Variable SearchService : Type.
Variable newDatabaseService : requestFunc -> string -> string -> DatabaseService.
Variable newSearchService : requestFunc -> string -> SearchService.

(** [type discogs struct]. *)
Record discogs : Type := mkDiscogs {
  Collection : collectionService;
  Database : DatabaseService;
  Search : SearchService;
  MarketPlace : marketPlaceService
}.

(** [&http.Client{}]. *)
Variable zeroClient : HttpClient.

(** [func New(o *Options) (Discogs, error)].  The third component is
    the record behind [o] when [New] returns: [New] writes the default
    URL into it. *)
Definition New (o : option (Options HttpClient))
  : option discogs * error * option (Options HttpClient) :=
  let header : Header := [] in
  match o with
  | None => (None, Some ErrUserAgentInvalid, o)
  | Some opts =>
      if String.eqb (UserAgent opts) "" then
        (None, Some ErrUserAgentInvalid, o)
      else
        let header := Header_Add "User-Agent" (UserAgent opts) header in
        let '(cur, err) := currency (Currency opts) in
        match err with
        | Some _ => (None, err, o)
        | None =>
            let header :=
              if negb (String.eqb (Token opts) "") then
                Header_Add "Authorization" ("Discogs token=" ++ Token opts)
                  header
              else header in
            let opts :=
              if String.eqb (URL opts) "" then
                mkOptions discogsAPI (Currency opts) (UserAgent opts)
                  (Token opts) (Client opts) (OptRateLimit opts)
              else opts in
            let client :=
              match Client opts with
              | Some c => c
              | None => zeroClient
              end in
            let req : requestFunc := fun ctx path params resp =>
              request ctx client header (OptRateLimit opts) path params resp in
            (Some (mkDiscogs
                     (newCollectionService req (URL opts ++ "/users"))
                     (newDatabaseService req (URL opts) cur)
                     (newSearchService req (URL opts ++ "/database/search"))
                     (newMarketPlaceService req (URL opts ++ "/marketplace")
                        cur)),
             None, Some opts)
        end
  end.

(** *** The collection service *)

(** [nil] as [url.Values], and [pagination.params()] on a pointer that
    may be nil; the type [Pagination] and this method are outside the
    available sources, of the type only the field [Sort] is read. *)
Variable nilValues : Values.
Variable Pagination : Type.
Variable Sort : Pagination -> string.
Variable Pagination_params : option Pagination -> Values.

(** [func (s *collectionService) Folder(ctx, username, folderID)]. *)
Definition Folder (s : collectionService) (ctx : Context)
  (username : string) (folderID : Z) (w : World St)
  : (option Value * error) * World St :=
  if String.eqb username "" then ((None, ErrInvalidUsername), w)
  else
    cs_request s ctx
      (cs_url s ++ "/" ++ username ++ "/collection/folders/" ++ Itoa folderID)
      nilValues None w.

(** [func (s *collectionService) CollectionFolders(ctx, username)]. *)
Definition CollectionFolders (s : collectionService) (ctx : Context)
  (username : string) (w : World St)
  : (option Value * error) * World St :=
  if String.eqb username "" then ((None, ErrInvalidUsername), w)
  else
    cs_request s ctx (cs_url s ++ "/" ++ username ++ "/collection/folders")
      nilValues None w.

(** [func (s *collectionService) CollectionItemsByFolder(ctx, username,
    folderID, pagination)]. *)
Definition CollectionItemsByFolder (s : collectionService) (ctx : Context)
  (username : string) (folderID : Z) (pagination : option Pagination)
  (w : World St) : (option Value * error) * World St :=
  if String.eqb username "" then ((None, ErrInvalidUsername), w)
  else
    let invalid :=
      match pagination with
      | Some p => negb (existsb (String.eqb (Sort p)) validItemsByFolderSort)
      | None => false
      end in
    if invalid then ((None, ErrInvalidSortKey), w)
    else
      cs_request s ctx
        (cs_url s ++ "/" ++ username ++ "/collection/folders/"
         ++ Itoa folderID ++ "/releases")
        (Pagination_params pagination) None w.

(** [func (s *collectionService) CollectionItemsByRelease(ctx, username,
    releaseID)]. *)
Definition CollectionItemsByRelease (s : collectionService) (ctx : Context)
  (username : string) (releaseID : Z) (w : World St)
  : (option Value * error) * World St :=
  if String.eqb username "" then ((None, ErrInvalidUsername), w)
  else if Z.eqb releaseID 0 then ((None, ErrInvalidReleaseID), w)
  else
    cs_request s ctx
      (cs_url s ++ "/" ++ username ++ "/collection/releases/" ++ Itoa releaseID)
      nilValues None w.

(** [func (s *marketPlaceService) ReleaseStatistics(ctx, releaseID)];
    [params.Set("curr_abbr", s.currency)] on fresh values is [with_currency]. *)
Variable with_currency : string -> Values.

Definition ReleaseStatistics (s : marketPlaceService) (ctx : Context)
  (releaseID : Z) (w : World St) : (option Value * error) * World St :=
  mp_request s ctx (mp_url s ++ "/stats/" ++ Itoa releaseID)
    (with_currency (mp_currency s)) None w.

(** [func (s *marketPlaceService) PriceSuggestions(ctx, releaseID)]. *)
Definition PriceSuggestions (s : marketPlaceService) (ctx : Context)
  (releaseID : Z) (w : World St) : (option Value * error) * World St :=
  mp_request s ctx (mp_url s ++ "/price_suggestions/" ++ Itoa releaseID)
    nilValues None w.

End Client.

(** *** The rate limited services

    Every method of the four [ratelimited...Service] types has the same
    body: [e = r.rl.Call(ctx, func() error { var err error; v, err =
    r.d.M(ctx, ...); return err }); return].  [method] stands for
    [r.d.M(ctx, ...)] and [r.rl] is the address of the record of the
    state. *)

Section Wrappers.

Variable St : Type.
Variable Context : Type.
Variable Value : Type.
Variable ErrTooManyRequests : error.
Variable wait : Context -> Duration -> World St -> Selected * World St.

(** The state with the named result [v] of the method, which the
    closure captures, put in front of the rest. *)
Definition frame (v : option Value) (w : World St)
  : World (option Value * St) :=
  mkWorld (clock w) (limiter w) (v, env w).

Definition unframe (w : World (option Value * St)) : World St :=
  mkWorld (clock w) (limiter w) (snd (env w)).

Definition captured (w : World (option Value * St)) : option Value :=
  fst (env w).

(** The closure handed to [Call]. *)
Definition limited_work
  (method : World St -> (option Value * error) * World St)
  : Work (option Value * St) :=
  fun w =>
    let '((v, err), w') := method (unframe w) in
    (err, frame v w').

(** The [select] of the sleep closure has no access to [v]. *)
Definition framed_wait
  : Context -> Duration -> World (option Value * St) ->
    Selected * World (option Value * St) :=
  fun ctx d w =>
    let '(sel, w') := wait ctx d (unframe w) in
    (sel, frame (captured w) w').

(** The run of [Call] inside a rate limited method. *)
Definition rate_limited_run (ctx : Context)
  (method : World St -> (option Value * error) * World St)
  (fuel : nat) (w : World St) : option (Exit (option Value * St)) :=
  Call ErrTooManyRequests framed_wait ctx (limited_work method) fuel
    (frame None w).

(** A rate limited method: its results [(v, e)] and the state it leaves. *)
Definition rate_limited (ctx : Context)
  (method : World St -> (option Value * error) * World St)
  (fuel : nat) (w : World St)
  : option ((option Value * error) * World St) :=
  match rate_limited_run ctx method fuel w with
  | Some x => Some ((captured (final x), result x), unframe (final x))
  | None => None
  end.

End Wrappers.

End Discogs.

(** ** A concrete server

    A server that still has some answers 429 in store (the state is
    their number) and answers 200 afterwards; every exchange takes a
    second.  Its 429 carries no rate limit headers, its 200 does. *)

Definition answer_429 : Discogs.Response string :=
  Discogs.mkResponse 429 "429 Too Many Requests"%string
    [] ""%string.

Definition answer_200 : Discogs.Response string :=
  Discogs.mkResponse 200 "200 OK"%string
    [("X-Discogs-Ratelimit", ["60"]);
     ("X-Discogs-Ratelimit-Used", ["1"]);
     ("X-Discogs-Ratelimit-Remaining", ["59"])]%string
    "{}"%string.

Definition busy_server
  : unit -> unit -> string -> Discogs.Header -> World nat ->
    (Discogs.Response string + errval) * World nat :=
  fun _ _ _ _ w =>
    match env w with
    | S n => (inl answer_429, mkWorld (clock w + Second) (limiter w) n)
    | O => (inl answer_200, mkWorld (clock w + Second) (limiter w) O)
    end.

(** Requests are always well formed, bodies are read whole and decode
    to themselves. *)
Definition always_well_formed : unit -> string -> error := fun _ _ => None.
Definition no_values : unit -> string := fun _ => EmptyString.
Definition read_whole : string -> string * error := fun b => (b, None).
Definition decode_as_is : string -> option string -> option string * error :=
  fun body _ => (Some body, None).

(** A timer that always fires first, and a context that is done. *)
Definition timer_fires : unit -> Duration -> World nat -> Selected * World nat :=
  fun _ d w => (TimerFired, mkWorld (clock w + Z.max 0 d) (limiter w) (env w)).

Definition context_done : unit -> Duration -> World nat -> Selected * World nat :=
  fun _ _ w => (CtxDone canceled, w).

(** The sentinels of the examples. *)
Definition unauthorized : error := Some (errorValue "authentication required").
Definition invalidUsername : error := Some (errorValue "invalid username").
Definition invalidSortKey : error := Some (errorValue "invalid sort key").
Definition invalidReleaseID : error := Some (errorValue "invalid release id").

(** The request function and the collection service of the examples. *)
Definition example_request
  : Discogs.requestFunc nat unit unit string :=
  fun ctx path params resp =>
    Discogs.request (Some tooManyRequests) unauthorized always_well_formed
      no_values busy_server read_whole decode_as_is ctx tt [] Discogs.theRateLimit
      path params resp.

Definition example_service : Discogs.collectionService nat unit unit string :=
  Discogs.newCollectionService example_request Discogs.discogsAPI.

Definition example_Folder
  : World nat -> (option string * error) * World nat :=
  Discogs.Folder invalidUsername tt example_service tt "bob"%string 7.

(** A state of the server at the Unix epoch with a never written record. *)
Definition server_at (rejections : nat) : World nat :=
  mkWorld unixEpoch zeroRateLimit rejections.

(** The same with a record written just now that leaves nothing. *)
Definition exhausted_at (rejections : nat) : World nat :=
  mkWorld unixEpoch (mkRateLimit Unlocked 60 60 0 unixEpoch) rejections.

(** Options with a user agent and a token, and nothing else. *)
Definition example_options : Discogs.Options unit :=
  Discogs.mkOptions ""%string ""%string "example/1.0"%string "secret"%string None Discogs.theRateLimit.

(** Some path to send a request to. *)
Definition example_path : string := "https://api.discogs.com/users/bob"%string.

(** ** Arithmetic of durations *)

Lemma wrap64_small (z : Z) :
  minDuration <= z <= maxDuration -> wrap64 z = z.
Proof.
  unfold minDuration, maxDuration, wrap64. intros H.
  rewrite Z.mod_small; lia.
Qed.

Lemma wrap64_congr (a : Z) : wrap64 (wrap64 a * 2) = wrap64 (a * 2).
Proof.
  unfold wrap64. f_equal.
  replace ((a + 2 ^ 63) mod 2 ^ 64 - 2 ^ 63) with
    (a - 2 ^ 64 * ((a + 2 ^ 63) / 2 ^ 64)).
  - replace ((a - 2 ^ 64 * ((a + 2 ^ 63) / 2 ^ 64)) * 2 + 2 ^ 63) with
      (a * 2 + 2 ^ 63 + (- (2 * ((a + 2 ^ 63) / 2 ^ 64))) * 2 ^ 64) by ring.
    apply Z.mod_add. lia.
  - pose proof (Z.div_mod (a + 2 ^ 63) (2 ^ 64)). lia.
Qed.

(** Comparing a saturated difference with ten seconds is comparing the
    exact difference with it. *)
Lemma Sub_fresh (t u : Time) :
  (Sub t u <? 10 * Second) = (t - u <? 10 * Second).
Proof.
  unfold Sub, maxDuration, minDuration, Second, Millisecond, Nanosecond.
  destruct (2 ^ 63 - 1 <? t - u) eqn:Hhi; [ | destruct (t - u <? - 2 ^ 63) eqn:Hlo ].
  - apply Z.ltb_lt in Hhi. symmetry. apply Z.ltb_ge. lia.
  - apply Z.ltb_lt in Hlo. transitivity true.
    + reflexivity.
    + symmetry. apply Z.ltb_lt. lia.
  - reflexivity.
Qed.

(** The [k]-th value of [delay] is the exact doubling, reduced to 64 bits. *)
Lemma backoff_nth (n : nat) : forall (d : Duration) (i : nat),
  (i < n)%nat ->
  nth i (backoff (wrap64 d) n) 0 = wrap64 (d * 2 ^ Z.of_nat i).
Proof.
  induction n as [| n IH]; intros d i Hi; [ lia | ].
  destruct i as [| i]; simpl backoff; simpl nth.
  - f_equal. unfold Duration in *. simpl. lia.
  - unfold mul64. rewrite wrap64_congr. rewrite IH by lia.
    f_equal. unfold Duration in *.
    rewrite Nat2Z.inj_succ, Z.pow_succ_r by lia. ring.
Qed.

Lemma backoff_length (n : nat) : forall d, List.length (backoff d n) = n.
Proof. induction n as [| n IH]; intros d; simpl; [ | rewrite IH ]; reflexivity. Qed.

(** As long as the last delay fits in 64 bits, the delays add up to the
    geometric sum. *)
Lemma backoff_total (n : nat) : forall d : Duration,
  0 <= d -> d * 2 ^ Z.of_nat n < 2 ^ 64 ->
  total_time (backoff d n) = (2 ^ Z.of_nat n - 1) * d.
Proof.
  unfold Duration.
  induction n as [| n IH]; intros d Hd Hfit.
  - simpl. ring.
  - destruct n as [| m].
    + unfold total_time. simpl fold_right.
      change (2 ^ Z.of_nat 1) with 2. ring.
    + remember (S m) as n eqn:Hn.
      rewrite Nat2Z.inj_succ, Z.pow_succ_r in * by lia.
      assert (Hpos : 2 <= 2 ^ Z.of_nat n).
      { subst n. rewrite Nat2Z.inj_succ, Z.pow_succ_r by lia.
        assert (1 <= 2 ^ Z.of_nat m) by (apply (Z.pow_le_mono_r 2 0); lia).
        lia. }
      simpl backoff. unfold total_time in *. simpl fold_right.
      unfold mul64. rewrite wrap64_small.
      * rewrite IH; [ ring | lia | nia ].
      * unfold minDuration, maxDuration. nia.
Qed.

(** ** One turn of the loop *)

Lemma pauses_app (a b : list Event) : pauses (a ++ b) = pauses a ++ pauses b.
Proof.
  induction a as [| e a IH]; [ reflexivity | ].
  destruct e as [d [r |] | r]; simpl; rewrite IH; reflexivity.
Qed.

Lemma works_app (a b : list Event) : works (a ++ b) = works a ++ works b.
Proof.
  induction a as [| e a IH]; [ reflexivity | ].
  destruct e as [d r | r]; simpl; rewrite IH; reflexivity.
Qed.

Section Turn.

Variables St Context : Type.
Variable ErrTooManyRequests : error.
Variable ctx : Context.
Variable f : Work St.
Variable sleep : Sleeper St Context.

Local Abbreviation turn := (iteration ErrTooManyRequests ctx f sleep).
Local Abbreviation try := (attempt ErrTooManyRequests f).
Local Abbreviation loop := (call_loop ErrTooManyRequests ctx f sleep).

Lemma Get_value (w : World St) : fst (Get w) = snapshot (limiter w).
Proof. reflexivity. Qed.

Lemma Get_snapshot (w : World St) :
  snapshot (limiter (snd (Get w))) = snapshot (limiter w).
Proof. reflexivity. Qed.

Lemma Get_env (w : World St) : env (snd (Get w)) = env w.
Proof. reflexivity. Qed.

Lemma Get_unlocked (w : World St) :
  mu (limiter w) = Unlocked -> snd (Get w) = w.
Proof.
  destruct w as [c [m t u r a] e]. simpl. intros ->. reflexivity.
Qed.

Lemma pause_due_eq (l : Locals) (w : World St) :
  pause_due l w =
  negb (first l)
  || ((clock w - updated (limiter w) <? 10 * Second)
      && (remaining (limiter w) <=? 1)).
Proof.
  unfold pause_due, must_pause, Get, Now. simpl. rewrite Sub_fresh. reflexivity.
Qed.

Lemma attempt_return (l : Locals) (w : World St) (evs : list Event) :
  Is (fst (f w)) ErrTooManyRequests = false ->
  try l w evs =
  (l, snd (f w), evs ++ [EvWork (fst (f w))], Return (fst (f w))).
Proof.
  unfold attempt. destruct (f w) as [err w']. simpl.
  intros ->. reflexivity.
Qed.

Lemma attempt_next (l : Locals) (w : World St) (evs : list Event) :
  Is (fst (f w)) ErrTooManyRequests = true ->
  try l w evs =
  (mkLocals (delay l) false, snd (f w), evs ++ [EvWork (fst (f w))], Next).
Proof.
  unfold attempt. destruct (f w) as [err w']. simpl.
  intros ->. reflexivity.
Qed.

Lemma iteration_direct (l : Locals) (w : World St) :
  pause_due l w = false ->
  turn l w = try l (snd (Get w)) [].
Proof.
  unfold iteration, pause_due. destruct (Get w) as [[[[t u] r] a] w'].
  simpl. intros ->. reflexivity.
Qed.

Lemma iteration_slept (l : Locals) (w w' : World St) :
  pause_due l w = true ->
  sleep ctx (delay l) (snd (Get w)) = (None, w') ->
  turn l w =
  try (mkLocals (mul64 (delay l) 2) (first l)) w' [EvSleep (delay l) None].
Proof.
  unfold iteration, pause_due. destruct (Get w) as [[[[t u] r] a] w1].
  simpl. intros -> ->. reflexivity.
Qed.

Lemma iteration_aborted (l : Locals) (w w' : World St) (e : errval) :
  pause_due l w = true ->
  sleep ctx (delay l) (snd (Get w)) = (Some e, w') ->
  turn l w = (l, w', [EvSleep (delay l) (Some e)], Return (Some e)).
Proof.
  unfold iteration, pause_due. destruct (Get w) as [[[[t u] r] a] w1].
  simpl. intros -> ->. reflexivity.
Qed.

Lemma pause_due_iff (l : Locals) (w : World St) :
  pause_due l w = true <->
  first l = false \/
  (clock w - updated (limiter w) < 10 * Second /\ remaining (limiter w) <= 1).
Proof.
  rewrite pause_due_eq, orb_true_iff, andb_true_iff, negb_true_iff.
  rewrite Z.ltb_lt, Z.leb_le. reflexivity.
Qed.

Lemma attempt_events (l : Locals) (w : World St) (evs : list Event) :
  events_of (try l w evs) = evs ++ [EvWork (fst (f w))].
Proof.
  unfold attempt, events_of. destruct (f w) as [err w'].
  destruct (negb (Is err ErrTooManyRequests)); reflexivity.
Qed.

(** What a turn asks of its environment. *)
Lemma turn_events (l : Locals) (w : World St) :
  events_of (turn l w) =
  if pause_due l w then
    match sleep ctx (delay l) (snd (Get w)) with
    | (Some e, _) => [EvSleep (delay l) (Some e)]
    | (None, w') => [EvSleep (delay l) None; EvWork (fst (f w'))]
    end
  else [EvWork (fst (f (snd (Get w))))].
Proof.
  destruct (pause_due l w) eqn:Hp.
  - destruct (sleep ctx (delay l) (snd (Get w))) as [[e |] w'] eqn:Hs.
    + erewrite iteration_aborted by eassumption. reflexivity.
    + erewrite iteration_slept by eassumption. apply attempt_events.
  - rewrite iteration_direct by assumption. apply attempt_events.
Qed.

(** A finished run starts with the events of its first turn. *)
Lemma loop_first_turn (k : nat) (l : Locals) (w : World St) (x : Exit St) :
  loop (S k) l w = Some x ->
  exists rest, events x = events_of (turn l w) ++ rest.
Proof.
  simpl. destruct (turn l w) as [[[l' w'] evs] [err |]]; unfold events_of; simpl.
  - intros H. injection H as <-. exists []. simpl. rewrite app_nil_r. reflexivity.
  - destruct (loop k l' w') as [x' |]; simpl; [ | discriminate ].
    intros H. injection H as <-. exists (events x'). reflexivity.
Qed.

End Turn.

(** ** Runs that end with a result of the work *)

Section Retry.

Variables St Context : Type.
Variable ErrTooManyRequests : error.
Variable ctx : Context.
Variable f : Work St.
Variable sleep : Sleeper St Context.

Local Abbreviation turn := (iteration ErrTooManyRequests ctx f sleep).
Local Abbreviation try := (attempt ErrTooManyRequests f).
Local Abbreviation loop := (call_loop ErrTooManyRequests ctx f sleep).
Local Abbreviation quota err := (Is err ErrTooManyRequests = true).

(** [rank s] counts the invocations of [f] that will still be rejected
    when the captured state is [s]. *)
Variable rank : St -> nat.

(** No pause is cut short, and pausing does not change the count. *)
Hypothesis sleep_done : forall d w,
  fst (sleep ctx d w) = None /\ rank (env (snd (sleep ctx d w))) = rank (env w).

(** While the count is positive, [f] reports quota exhaustion. *)
Hypothesis work_rejected : forall w n,
  rank (env w) = S n ->
  quota (fst (f w)) /\ rank (env (snd (f w))) = n.

(** Once it has reached zero, [f] returns something else. *)
Hypothesis work_settled : forall w,
  rank (env w) = O -> Is (fst (f w)) ErrTooManyRequests = false.

(** The first half of a turn: an optional completed pause. *)
Lemma turn_head (l : Locals) (w : World St) :
  exists w1,
    rank (env w1) = rank (env w) /\
    turn l w =
    if pause_due l w
    then try (mkLocals (mul64 (delay l) 2) (first l)) w1 [EvSleep (delay l) None]
    else try l w1 [].
Proof.
  destruct (pause_due l w) eqn:Hp.
  - destruct (sleep ctx (delay l) (snd (Get w))) as [err w1] eqn:Hs.
    destruct (sleep_done (delay l) (snd (Get w))) as [Hnil Hrank].
    rewrite Hs in Hnil, Hrank. simpl in Hnil, Hrank. subst err.
    exists w1. split; [ rewrite Hrank; apply f_equal, Get_env | ].
    apply iteration_slept; assumption.
  - exists (snd (Get w)). split; [ apply f_equal, Get_env | ].
    apply iteration_direct; assumption.
Qed.

Lemma run_from (n : nat) : forall (l : Locals) (w : World St) (k : nat),
  rank (env w) = n ->
  exists x qs,
    loop (S n + k) l w = Some x /\
    works (events x) = qs ++ [result x] /\
    List.length qs = n /\
    Forall (fun r => quota r) qs /\
    Is (result x) ErrTooManyRequests = false /\
    pauses (events x) =
    backoff (delay l) (n + if pause_due l w then 1 else 0).
Proof.
  induction n as [| n IH]; intros l w k Hrank.
  - destruct (turn_head l w) as [w1 [Hr1 Hturn]].
    rewrite Hrank in Hr1. pose proof (work_settled _ Hr1) as Hok.
    simpl call_loop. rewrite Hturn.
    destruct (pause_due l w); rewrite attempt_return by assumption.
    + eexists; exists []. repeat split; simpl; auto.
    + eexists; exists []. repeat split; simpl; auto.
  - destruct (turn_head l w) as [w1 [Hr1 Hturn]].
    rewrite Hrank in Hr1. destruct (work_rejected _ Hr1) as [Hq Hr2].
    change (loop (S (S n) + k) l w) with
      (let '(l', w', evs, st) := turn l w in
       match st with
       | Return err => Some (mkExit err w' evs l')
       | Next => option_map (after evs) (loop (S n + k) l' w')
       end).
    rewrite Hturn.
    destruct (pause_due l w); rewrite attempt_next by assumption;
      match goal with
      | |- context [ loop (S n + k) ?l' ?w' ] =>
          destruct (IH l' w' k Hr2) as [x [qs [Hrun [Hw [Hlen [Hall [Hres Hp]]]]]]]
      end;
      rewrite Hrun; simpl option_map;
      rewrite pause_due_eq in Hp; simpl in Hp;
      eexists; exists (fst (f w1) :: qs);
      (split; [ reflexivity | ]);
      simpl; rewrite Hw, Hp;
      (split; [ reflexivity | ]);
      (split; [ rewrite Hlen; reflexivity | ]);
      (split; [ constructor; assumption | ]);
      (split; [ assumption | ]).
    + reflexivity.
    + replace (n + 1)%nat with (S (n + 0)) by lia. reflexivity.
Qed.

Lemma minimum_fits (n : nat) :
  (n <= 32)%nat -> minimumRateLimitDelay * 2 ^ Z.of_nat n < 2 ^ 64.
Proof.
  intros Hn.
  assert (H : 2 ^ Z.of_nat n <= 2 ^ 32) by (apply Z.pow_le_mono_r; lia).
  assert (Hmin : minimumRateLimitDelay = 2500000000) by reflexivity.
  rewrite Hmin. change (2 ^ 64) with 18446744073709551616.
  change (2 ^ 32) with 4294967296 in H. lia.
Qed.

(** C1 (amended).  When [f] is rejected on its first [N] invocations and
    returns something else on the next one, and no pause is cut short,
    [call] returns that last result after [n] pauses, where [n] is [N]
    plus one if the snapshot asked for a pause before the first attempt.
    The [i]-th pause lasts [minimumRateLimitDelay * 2^i] reduced to a
    signed 64-bit number of nanoseconds; up to [n = 32] pauses nothing
    is lost and the total is [(2^n - 1) * minimumRateLimitDelay]. *)
Theorem call_backoff_total (N k : nat) (w : World St) :
  rank (env w) = N ->
  exists x qs,
    call ErrTooManyRequests ctx f sleep (S N + k) w = Some x /\
    works (events x) = qs ++ [result x] /\
    List.length qs = N /\
    Forall (fun r => quota r) qs /\
    Is (result x) ErrTooManyRequests = false /\
    List.length (pauses (events x)) = (N + preventive w)%nat /\
    (forall i, (i < N + preventive w)%nat ->
       nth i (pauses (events x)) 0 =
       wrap64 (minimumRateLimitDelay * 2 ^ Z.of_nat i)) /\
    ((N + preventive w <= 32)%nat ->
       total_time (pauses (events x)) =
       (2 ^ Z.of_nat (N + preventive w) - 1) * minimumRateLimitDelay).
Proof.
  intros Hrank.
  destruct (run_from entry w k Hrank)
    as [x [qs [Hrun [Hw [Hlen [Hall [Hres Hp]]]]]]].
  exists x, qs. unfold call. fold entry.
  repeat (split; [ assumption | ]).
  rewrite Hp. simpl delay. fold (preventive w).
  split; [ apply backoff_length | split ].
  - intros i Hi.
    rewrite <- (wrap64_small (z := minimumRateLimitDelay)) at 1
      by (vm_compute; split; discriminate).
    apply backoff_nth; assumption.
  - intros Hn. apply backoff_total.
    + vm_compute; discriminate.
    + apply minimum_fits; assumption.
Qed.

(** C3 (amended).  When the [k]-th result of [f] is the first one that
    does not match the sentinel under [errors.Is] (here [k = N + 1]), and
    no pause is cut short, [call] invokes [f] exactly [k] times and
    returns that [k]-th result as it is; the [N] results before it, all
    matching the sentinel, were retried. *)
Theorem call_returns_first_unmatched (N k : nat) (w : World St) :
  rank (env w) = N ->
  exists x qs,
    call ErrTooManyRequests ctx f sleep (S N + k) w = Some x /\
    List.length (works (events x)) = S N /\
    works (events x) = qs ++ [result x] /\
    Forall (fun r => quota r) qs /\
    Is (result x) ErrTooManyRequests = false.
Proof.
  intros Hrank.
  destruct (run_from entry w k Hrank)
    as [x [qs [Hrun [Hw [Hlen [Hall [Hres _]]]]]]].
  exists x, qs. unfold call. fold entry.
  split; [ assumption | ].
  split; [ rewrite Hw, length_app, Hlen; simpl; lia | ].
  repeat (split; [ assumption | ]). assumption.
Qed.

End Retry.

(** ** The scripted environment meets the assumptions on [f] and [sleep] *)

Lemma mock_sleep_done (target : error) (d : Duration) (w : World Script) :
  fst (mock_sleep tt d w) = None /\
  script_rank target (env (snd (mock_sleep tt d w))) = script_rank target (env w).
Proof. split; reflexivity. Qed.

Lemma request_rejected (target : error) (w : World Script) (n : nat) :
  script_rank target (env w) = S n ->
  Is (fst (request w)) target = true /\
  script_rank target (env (snd (request w))) = n.
Proof.
  unfold script_rank, request.
  destruct (attempts (env w)) as [| err rest]; simpl; [ discriminate | ].
  destruct (Is err target) eqn:His; [ | discriminate ].
  intros H. injection H as H. split; auto.
Qed.

Lemma request_settled (e : errval) (w : World Script) :
  script_rank (Some e) (env w) = O ->
  Is (fst (request w)) (Some e) = false.
Proof.
  unfold script_rank, request.
  destruct (attempts (env w)) as [| err rest]; simpl; [ reflexivity | ].
  destruct (Is err (Some e)) eqn:His; [ discriminate | ].
  intros _. auto.
Qed.

(** ** The snapshot: [Update] and [Get] *)

(** C6.  [Update] stores its three arguments, whatever they are, and the
    reading of the clock; as long as the record is not written again, a
    [Get] returns exactly these four values. *)
Theorem Get_after_Update (St : Type) (t u r : Z) (w w' : World St) :
  limiter w' = limiter (Update t u r w) ->
  fst (Get w') = (t, u, r, Now w).
Proof.
  intros H. rewrite Get_value, H. reflexivity.
Qed.

(** ** The decision to pause *)

Section Pacing.

Variables St Context : Type.
Variable ErrTooManyRequests : error.
Variable ctx : Context.
Variable f : Work St.
Variable sleep : Sleeper St Context.

Local Abbreviation turn := (iteration ErrTooManyRequests ctx f sleep).
Local Abbreviation try := (attempt ErrTooManyRequests f).
Local Abbreviation loop := (call_loop ErrTooManyRequests ctx f sleep).

Lemma turn_events_paused (l : Locals) (w : World St) :
  pause_due l w = true ->
  exists r rest, events_of (turn l w) = EvSleep (delay l) r :: rest.
Proof.
  intros Hp. rewrite turn_events, Hp.
  destruct (sleep ctx (delay l) (snd (Get w))) as [[e |] w']; eauto.
Qed.

Lemma turn_events_direct (l : Locals) (w : World St) :
  pause_due l w = false ->
  events_of (turn l w) = [EvWork (fst (f (snd (Get w))))].
Proof.
  intros Hp. rewrite turn_events, Hp. reflexivity.
Qed.

(** C2.  A turn of the loop starts with a pause exactly when it follows
    a rejection ([first] is false) or the snapshot is less than ten
    seconds old and [remaining] is at most 1; otherwise the only thing
    the turn does is to invoke [f]. *)
Theorem pause_iff_retry_or_fresh_low (l : Locals) (w : World St) :
  ((first l = false \/
    (Now w - updated (limiter w) < 10 * Second /\ remaining (limiter w) <= 1))
   <-> exists r rest, events_of (turn l w) = EvSleep (delay l) r :: rest)
  /\
  (~ (first l = false \/
      (Now w - updated (limiter w) < 10 * Second /\ remaining (limiter w) <= 1))
   -> events_of (turn l w) = [EvWork (fst (f (snd (Get w))))]).
Proof.
  unfold Now. rewrite <- pause_due_iff. split; [ split | ].
  - apply turn_events_paused.
  - intros [r [rest H]]. destruct (pause_due l w) eqn:Hp; [ reflexivity | ].
    rewrite turn_events_direct in H by assumption. discriminate.
  - intros Hn. apply turn_events_direct.
    destruct (pause_due l w); [ contradiction Hn; reflexivity | reflexivity ].
Qed.

(** The test of the loop, on the fields it reads. *)
Lemma pause_due_Sub (l : Locals) (w : World St) :
  pause_due l w =
  negb (first l)
  || ((Sub (Now w) (updated (limiter w)) <? 10 * Second)
      && (remaining (limiter w) <=? 1)).
Proof. reflexivity. Qed.

(** C10.  On a first attempt, an elapsed time of ten seconds or more
    means no pause, whatever [remaining] is; an elapsed time below ten
    seconds with [remaining <= 1] means a pause. *)
Theorem freshness_window_exclusive (l : Locals) (w : World St) :
  first l = true ->
  (10 * Second <= Sub (Now w) (updated (limiter w)) ->
   events_of (turn l w) = [EvWork (fst (f (snd (Get w))))])
  /\
  (Sub (Now w) (updated (limiter w)) < 10 * Second ->
   remaining (limiter w) <= 1 ->
   exists r rest, events_of (turn l w) = EvSleep (delay l) r :: rest).
Proof.
  intros Hfirst. split.
  - intros Hold. apply turn_events_direct.
    rewrite pause_due_Sub, Hfirst.
    apply Z.ltb_ge in Hold. rewrite Hold. reflexivity.
  - intros Hnew Hlow. apply turn_events_paused.
    rewrite pause_due_Sub.
    apply Z.ltb_lt in Hnew. apply Z.leb_le in Hlow.
    rewrite Hnew, Hlow. apply orb_true_r.
Qed.

(** C5.  When the first invocation of [f] returns something other than
    quota exhaustion: with [remaining > 1] or a snapshot at least ten
    seconds old, [call] returns without any pause; with a snapshot less
    than ten seconds old and [remaining <= 1], it pauses once, for
    [minimumRateLimitDelay], and then makes its single attempt. *)
Theorem single_attempt_pauses (k : nat) (w : World St) :
  (remaining (limiter w) > 1 \/ 10 * Second <= Now w - updated (limiter w) ->
   Is (fst (f (snd (Get w)))) ErrTooManyRequests = false ->
   exists x,
     call ErrTooManyRequests ctx f sleep (S k) w = Some x /\
     result x = fst (f (snd (Get w))) /\
     events x = [EvWork (result x)] /\
     total_time (pauses (events x)) = 0)
  /\
  (forall w1,
   Now w - updated (limiter w) < 10 * Second ->
   remaining (limiter w) <= 1 ->
   sleep ctx minimumRateLimitDelay (snd (Get w)) = (None, w1) ->
   Is (fst (f w1)) ErrTooManyRequests = false ->
   exists x,
     call ErrTooManyRequests ctx f sleep (S k) w = Some x /\
     result x = fst (f w1) /\
     events x = [EvSleep minimumRateLimitDelay None; EvWork (result x)] /\
     total_time (pauses (events x)) = minimumRateLimitDelay).
Proof.
  unfold Now. split.
  - intros Hcalm Hok.
    assert (Hp : pause_due entry w = false).
    { destruct (pause_due entry w) eqn:Hp; [ | reflexivity ].
      apply pause_due_iff in Hp.
      destruct Hp as [Hp | [Hp1 Hp2]]; [ discriminate | ].
      unfold Time, Duration in *. lia. }
    unfold call. fold entry. simpl call_loop.
    rewrite iteration_direct by assumption.
    rewrite attempt_return by assumption.
    eexists. split; [ reflexivity | ]. simpl. repeat split.
  - intros w1 Hnew Hlow Hsleep Hok.
    assert (Hp : pause_due entry w = true).
    { apply pause_due_iff. right. split; assumption. }
    unfold call. fold entry. simpl call_loop.
    erewrite iteration_slept by eassumption.
    rewrite attempt_return by assumption.
    eexists. split; [ reflexivity | ]. simpl. repeat split.
Qed.

(** C9.  With the zero [RateLimit] and a clock that reads no earlier
    than the Unix epoch, the first turn of [call] invokes [f] without
    pausing, although the stored [remaining] is 0: the zero timestamp is
    more than ten seconds in the past. *)
Theorem zero_value_never_pauses_first (w : World St) :
  limiter w = zeroRateLimit ->
  unixEpoch <= Now w ->
  remaining (limiter w) = 0 /\
  pause_due entry w = false /\
  events_of (turn entry w) = [EvWork (fst (f w))] /\
  forall fuel x,
    call ErrTooManyRequests ctx f sleep fuel w = Some x ->
    exists rest, events x = EvWork (fst (f w)) :: rest.
Proof.
  intros Hzero Hclock. unfold Now in Hclock.
  assert (Hp : pause_due entry w = false).
  { apply not_true_is_false. intros Hp. apply pause_due_iff in Hp.
    destruct Hp as [Hp | [Hp _]]; [ discriminate | ].
    rewrite Hzero in Hp. simpl updated in Hp.
    assert (10 * Second <= unixEpoch) by (vm_compute; discriminate).
    unfold zeroTime, Time, Duration in *. lia. }
  assert (Hw : snd (Get w) = w) by (apply Get_unlocked; rewrite Hzero; reflexivity).
  assert (He : events_of (turn entry w) = [EvWork (fst (f w))]).
  { rewrite turn_events_direct by assumption. rewrite Hw. reflexivity. }
  split; [ rewrite Hzero; reflexivity | ].
  split; [ assumption | ]. split; [ assumption | ].
  intros [| fuel] x Hrun; [ discriminate | ].
  apply loop_first_turn in Hrun. destruct Hrun as [rest Hrest].
  fold entry in Hrest.
  rewrite He in Hrest. exists rest. assumption.
Qed.

End Pacing.

(** ** What a whole run does and does not do *)

Section Runs.

Variables St Context : Type.
Variable ErrTooManyRequests : error.
Variable ctx : Context.
Variable f : Work St.
Variable sleep : Sleeper St Context.

Local Abbreviation turn := (iteration ErrTooManyRequests ctx f sleep).
Local Abbreviation try := (attempt ErrTooManyRequests f).
Local Abbreviation loop := (call_loop ErrTooManyRequests ctx f sleep).

(** The four ways a turn can go. *)
Lemma turn_cases (l : Locals) (w : World St) :
  (exists e w', turn l w = (l, w', [EvSleep (delay l) (Some e)], Return (Some e))
                /\ w' = snd (sleep ctx (delay l) (snd (Get w))))
  \/
  (exists l1 w1 evs,
     turn l w = try l1 w1 evs /\
     (evs = [] \/ evs = [EvSleep (delay l) None]) /\
     (w1 = snd (Get w) \/ w1 = snd (sleep ctx (delay l) (snd (Get w))))).
Proof.
  destruct (pause_due l w) eqn:Hp.
  - destruct (sleep ctx (delay l) (snd (Get w))) as [[e |] w'] eqn:Hs.
    + left. exists e, w'. split; [ | reflexivity ].
      eapply iteration_aborted; eassumption.
    + right. eexists _, w', _. split; [ eapply iteration_slept; eassumption | ].
      split; [ right; reflexivity | right; reflexivity ].
  - right. eexists _, _, _. split; [ apply iteration_direct; assumption | ].
    split; left; reflexivity.
Qed.

Lemma attempt_cases (l : Locals) (w : World St) (evs : list Event) :
  (Is (fst (f w)) ErrTooManyRequests = false /\
   try l w evs = (l, snd (f w), evs ++ [EvWork (fst (f w))], Return (fst (f w))))
  \/
  (Is (fst (f w)) ErrTooManyRequests = true /\
   try l w evs =
   (mkLocals (delay l) false, snd (f w), evs ++ [EvWork (fst (f w))], Next)).
Proof.
  destruct (Is (fst (f w)) ErrTooManyRequests) eqn:His.
  - right. split; [ reflexivity | apply attempt_next; assumption ].
  - left. split; [ reflexivity | apply attempt_return; assumption ].
Qed.

(** Anything that holds of the snapshot and survives [f] and [sleep]
    survives the loop. *)
Lemma loop_keeps (P : Snapshot -> Prop) :
  (forall w, P (snapshot (limiter w)) -> P (snapshot (limiter (snd (f w))))) ->
  (forall d w, P (snapshot (limiter w)) ->
               P (snapshot (limiter (snd (sleep ctx d w))))) ->
  forall fuel l w x,
    P (snapshot (limiter w)) -> loop fuel l w = Some x ->
    P (snapshot (limiter (final x))).
Proof.
  intros Hf Hs. induction fuel as [| fuel IH]; intros l w x HP; [ discriminate | ].
  simpl call_loop.
  assert (HG : P (snapshot (limiter (snd (Get w)))))
    by (rewrite Get_snapshot; assumption).
  destruct (turn_cases l w) as [[e [w' [Ht Hw']]] | [l1 [w1 [evs [Ht [_ Hw1]]]]]];
    rewrite Ht.
  - intros H. injection H as <-. simpl. subst w'. apply Hs; assumption.
  - assert (H1 : P (snapshot (limiter w1))).
    { destruct Hw1 as [-> | ->]; [ assumption | apply Hs; assumption ]. }
    destruct (attempt_cases l1 w1 evs) as [[_ Ha] | [_ Ha]]; rewrite Ha.
    + intros H. injection H as <-. simpl. apply Hf; assumption.
    + destruct (loop fuel _ (snd (f w1))) as [x' |] eqn:Hrun; [ | discriminate ].
      simpl. intros H. injection H as <-. simpl.
      eapply IH; [ | eassumption ]. apply Hf; assumption.
Qed.

(** C7.  [Get] leaves the four fields as they are, and [call] writes
    none of them: whatever holds of the snapshot and is preserved by
    [f] and by [sleep] still holds when [call] returns, however many
    turns it took. *)
Theorem snapshot_written_only_by_Update :
  (forall w : World St,
     snapshot (limiter (snd (Get w))) = snapshot (limiter w)) /\
  (forall P : Snapshot -> Prop,
     (forall w, P (snapshot (limiter w)) ->
                P (snapshot (limiter (snd (f w))))) ->
     (forall d w, P (snapshot (limiter w)) ->
                  P (snapshot (limiter (snd (sleep ctx d w))))) ->
     forall fuel w x,
       P (snapshot (limiter w)) ->
       call ErrTooManyRequests ctx f sleep fuel w = Some x ->
       P (snapshot (limiter (final x)))).
Proof.
  split.
  - intros w. apply Get_snapshot.
  - intros P Hf Hs fuel w x HP Hrun. unfold call in Hrun.
    eapply loop_keeps; eassumption.
Qed.

(** A finished run ends either with a result of [f] that does not match
    the sentinel, or with the error of a pause that was cut short. *)
Lemma loop_exit (fuel : nat) : forall l w x,
  loop fuel l w = Some x ->
  (exists evs, events x = evs ++ [EvWork (result x)] /\
               Is (result x) ErrTooManyRequests = false)
  \/
  (exists evs d e, events x = evs ++ [EvSleep d (Some e)] /\
                   result x = Some e /\ works evs = works (events x)).
Proof.
  induction fuel as [| fuel IH]; intros l w x; [ discriminate | ].
  simpl call_loop.
  destruct (turn_cases l w) as [[e [w' [Ht _]]] | [l1 [w1 [evs [Ht _]]]]];
    rewrite Ht.
  - intros H. injection H as <-. right. exists [], (delay l), e.
    repeat split.
  - destruct (attempt_cases l1 w1 evs) as [[Hok Ha] | [_ Ha]]; rewrite Ha.
    + intros H. injection H as <-. left. exists evs. split; [ reflexivity | assumption ].
    + destruct (loop fuel _ (snd (f w1))) as [x' |] eqn:Hrun; [ | discriminate ].
      simpl. intros H. injection H as <-. simpl.
      destruct (IH _ _ _ Hrun) as [[evs' [He Hok]] | [evs' [d [e [He [Hr Hw]]]]]].
      * left. exists ((evs ++ [EvWork (fst (f w1))]) ++ evs').
        rewrite He, app_assoc. split; [ reflexivity | assumption ].
      * right. exists ((evs ++ [EvWork (fst (f w1))]) ++ evs'), d, e.
        rewrite He, app_assoc. split; [ reflexivity | split; [ assumption | ] ].
        rewrite (works_app _ [EvSleep d (Some e)]). simpl.
        rewrite app_nil_r. reflexivity.
Qed.

(** C8.  An error that wraps an error matching the sentinel matches it
    too; a result of [f] that matches the sentinel under [errors.Is]
    makes the loop go round again with [first] cleared; and what [call]
    returns from [f] never matches the sentinel. *)
Theorem wrapped_sentinel_is_retried :
  (forall (a : string) (inner sentinel : errval),
     Is (Some inner) (Some sentinel) = true ->
     Is (Some (wrapError a inner)) (Some sentinel) = true) /\
  (forall l w evs,
     Is (fst (f w)) ErrTooManyRequests = true ->
     try l w evs =
     (mkLocals (delay l) false, snd (f w), evs ++ [EvWork (fst (f w))], Next)) /\
  (forall fuel w x,
     call ErrTooManyRequests ctx f sleep fuel w = Some x ->
     (exists evs, events x = evs ++ [EvWork (result x)] /\
                  Is (result x) ErrTooManyRequests = false)
     \/
     (exists evs d e, events x = evs ++ [EvSleep d (Some e)] /\
                      result x = Some e /\ works evs = works (events x))).
Proof.
  split; [ | split ].
  - intros a inner sentinel H. unfold Is in *.
    change (is_chain (wrapError a inner) sentinel) with
      (if errval_eqb (wrapError a inner) sentinel then true
       else is_chain inner sentinel).
    rewrite H. destruct (errval_eqb (wrapError a inner) sentinel); reflexivity.
  - intros l w evs H. apply attempt_next; assumption.
  - intros fuel w x Hrun. unfold call in Hrun. eapply loop_exit; eassumption.
Qed.

End Runs.

(** ** Cancellation during a pause *)

Lemma cut_short_split (ev : Event) (rest pre post : list Event)
  (d : Duration) (e : errval) :
  ev :: rest = pre ++ EvSleep d (Some e) :: post ->
  (ev = EvSleep d (Some e) /\ pre = [] /\ rest = post)
  \/ (exists pre', pre = ev :: pre' /\ rest = pre' ++ EvSleep d (Some e) :: post).
Proof.
  destruct pre as [| p pre']; simpl; intros H; injection H as H1 H2.
  - left. repeat split; assumption.
  - right. exists pre'. subst. split; reflexivity.
Qed.

Section Cancellation.

Variables St Context : Type.
Variable ErrTooManyRequests : error.
Variable ctx : Context.
Variable f : Work St.
Variable sleep : Sleeper St Context.

Local Abbreviation turn := (iteration ErrTooManyRequests ctx f sleep).
Local Abbreviation try := (attempt ErrTooManyRequests f).
Local Abbreviation loop := (call_loop ErrTooManyRequests ctx f sleep).

(** Nothing follows a pause that was cut short. *)
Lemma loop_abort_last (fuel : nat) : forall l w x pre d e post,
  loop fuel l w = Some x ->
  events x = pre ++ EvSleep d (Some e) :: post ->
  post = [] /\ result x = Some e.
Proof.
  induction fuel as [| fuel IH]; intros l w x pre d e post; [ discriminate | ].
  simpl call_loop.
  destruct (turn_cases ErrTooManyRequests ctx f sleep l w)
    as [[e0 [w' [Ht _]]] | [l1 [w1 [evs [Ht [Hevs _]]]]]]; rewrite Ht.
  - intros H. injection H as <-. simpl. intros Hsplit.
    apply cut_short_split in Hsplit.
    destruct Hsplit as [[Hev [_ Hpost]] | [pre' [_ Hnil]]].
    + injection Hev as _ <-. split; [ symmetry; assumption | reflexivity ].
    + destruct pre'; discriminate.
  - destruct (attempt_cases ErrTooManyRequests f l1 w1 evs)
      as [[_ Ha] | [_ Ha]]; rewrite Ha.
    + intros H. injection H as <-. simpl. intros Hsplit. exfalso.
      destruct Hevs as [-> | ->]; simpl in Hsplit;
        apply cut_short_split in Hsplit;
        destruct Hsplit as [[Hev _] | [pre' [_ Hrest]]]; try discriminate.
      * destruct pre'; discriminate.
      * apply cut_short_split in Hrest.
        destruct Hrest as [[Hev _] | [pre'' [_ Hnil]]]; [ discriminate | ].
        destruct pre''; discriminate.
    + destruct (loop fuel _ (snd (f w1))) as [x' |] eqn:Hrun; [ | discriminate ].
      simpl. intros H. injection H as <-. simpl. intros Hsplit.
      destruct Hevs as [-> | ->]; simpl in Hsplit;
        apply cut_short_split in Hsplit;
        destruct Hsplit as [[Hev _] | [pre' [_ Hrest]]]; try discriminate.
      * eapply IH; eassumption.
      * apply cut_short_split in Hrest.
        destruct Hrest as [[Hev _] | [pre'' [_ Hrest]]]; [ discriminate | ].
        eapply IH; eassumption.
Qed.

End Cancellation.

Section CallCancellation.

Variables St Context : Type.
Variable ErrTooManyRequests : error.
Variable ctx : Context.
Variable f : Work St.
Variable wait : Context -> Duration -> World St -> Selected * World St.

(** C4.  When the [select] in the sleep closure of [Call] receives from
    [ctx.Done()], the loop returns the context's error at once: the turn
    asks for nothing but that pause, [f] is not invoked, and [delay] is
    what it was before the pause.  Over a whole run of [Call], a pause
    that was cut short is the last event, the context's error is the
    result, and [f] was invoked only before that pause. *)
Theorem canceled_pause_returns_ctx_error :
  (forall (l : Locals) (w w' : World St) (e : errval) (k : nat),
     pause_due l w = true ->
     wait ctx (delay l) (snd (Get w)) = (CtxDone e, w') ->
     call_loop ErrTooManyRequests ctx f (Call_sleep wait) (S k) l w =
     Some (mkExit (Some e) w' [EvSleep (delay l) (Some e)] l)) /\
  (forall (fuel : nat) (w : World St) (x : Exit St) pre d e post,
     Call ErrTooManyRequests wait ctx f fuel w = Some x ->
     events x = pre ++ EvSleep d (Some e) :: post ->
     post = [] /\ result x = Some e /\ works (events x) = works pre).
Proof.
  split.
  - intros l w w' e k Hp Hwait. simpl call_loop.
    erewrite iteration_aborted; [ reflexivity | assumption | ].
    unfold Call_sleep. rewrite Hwait. reflexivity.
  - intros fuel w x pre d e post Hrun Hsplit. unfold Call, call in Hrun.
    assert (Hlast := Hsplit).
    eapply loop_abort_last in Hlast; [ | exact Hrun ].
    destruct Hlast as [-> Hres].
    repeat split; [ assumption | ].
    rewrite Hsplit, works_app. simpl. apply app_nil_r.
Qed.

End CallCancellation.

(** ** The theorems at work on the scripted environment *)

(** Snapshot [(10, 10, 0)], fresh, two rejections and then success:
    three pauses, [7 * minimumRateLimitDelay] in total. *)
Lemma call_backoff_total_witness :
  exists x qs,
    call (Some tooManyRequests) tt request mock_sleep (3 + 0)
      (world_at 10 10 0 0 (rejected_times 2)) = Some x /\
    works (events x) = qs ++ [result x] /\
    List.length qs = 2%nat /\
    Forall (fun r => Is r (Some tooManyRequests) = true) qs /\
    Is (result x) (Some tooManyRequests) = false /\
    List.length (pauses (events x)) = 3%nat /\
    (forall i, (i < 3)%nat ->
       nth i (pauses (events x)) 0 =
       wrap64 (minimumRateLimitDelay * 2 ^ Z.of_nat i)) /\
    ((3 <= 32)%nat ->
       total_time (pauses (events x)) = (2 ^ 3 - 1) * minimumRateLimitDelay).
Proof.
  exact (@call_backoff_total Script unit (Some tooManyRequests) tt
           request mock_sleep (script_rank (Some tooManyRequests))
           (mock_sleep_done (Some tooManyRequests))
           (request_rejected (Some tooManyRequests))
           (request_settled tooManyRequests)
           2%nat 0%nat (world_at 10 10 0 0 (rejected_times 2)) eq_refl).
Defined.

(** C1 as it is stated fails once the doubling leaves the 64-bit range:
    with no pause before the first attempt and 33 rejections, the 33rd
    pause is asked with a negative duration and the durations do not add
    up to [(2^33 - 1) * minimumRateLimitDelay]. *)
Lemma call_backoff_overflows :
  pause_due entry (world_at 10 6 4 0 (rejected_times 33)) = false /\
  exists x,
    call (Some tooManyRequests) tt request mock_sleep 34
      (world_at 10 6 4 0 (rejected_times 33)) = Some x /\
    works (events x) = rejected_times 33 /\
    result x = None /\
    nth 32 (pauses (events x)) 0 = -7709325833709551616 /\
    total_time (pauses (events x)) <> (2 ^ 33 - 1) * minimumRateLimitDelay.
Proof.
  split; [ reflexivity | ].
  eexists. split; [ vm_compute; reflexivity | ].
  split; [ vm_compute; reflexivity | ].
  split; [ reflexivity | ].
  split; [ vm_compute; reflexivity | ].
  vm_compute. discriminate.
Qed.

(** A wrapped sentinel, the sentinel itself, then an unrelated error:
    three invocations, and the unrelated error comes back as it is. *)
Lemma call_returns_first_unmatched_witness :
  exists x qs,
    call (Some tooManyRequests) tt request mock_sleep (3 + 0)
      (world_at 10 6 4 0
         [wrapped; Some tooManyRequests; Some (errorValue "unexpected EOF")])
    = Some x /\
    List.length (works (events x)) = 3%nat /\
    works (events x) = qs ++ [result x] /\
    Forall (fun r => Is r (Some tooManyRequests) = true) qs /\
    Is (result x) (Some tooManyRequests) = false.
Proof.
  exact (@call_returns_first_unmatched Script unit (Some tooManyRequests) tt
           request mock_sleep (script_rank (Some tooManyRequests))
           (mock_sleep_done (Some tooManyRequests))
           (request_rejected (Some tooManyRequests))
           (request_settled tooManyRequests)
           2%nat 0%nat
           (world_at 10 6 4 0
              [wrapped; Some tooManyRequests; Some (errorValue "unexpected EOF")])
           eq_refl).
Defined.

(** C3 as it is stated fails on an error that is not the sentinel but
    wraps it: it is the first result different from the sentinel, yet
    [call] does not return it; [f] is invoked a second time and [call]
    returns the second result. *)
Lemma call_retries_wrapped_sentinel :
  error_eqb wrapped (Some tooManyRequests) = false /\
  exists x,
    call (Some tooManyRequests) tt request mock_sleep 2
      (world_at 10 6 4 0 [wrapped; None]) = Some x /\
    works (events x) = [wrapped; None] /\
    result x = None /\
    result x <> wrapped.
Proof.
  split; [ reflexivity | ].
  eexists. split; [ vm_compute; reflexivity | ].
  repeat split. discriminate.
Qed.

(** Fresh snapshot with [remaining = 1]: the first turn pauses. *)
Lemma pause_iff_retry_or_fresh_low_witness :
  exists r rest,
    events_of (iteration (Some tooManyRequests) tt request mock_sleep
                 entry (world_at 10 9 1 0 [None]))
    = EvSleep (delay entry) r :: rest.
Proof.
  apply (proj1 (proj1 (@pause_iff_retry_or_fresh_low Script unit
                         (Some tooManyRequests) tt request mock_sleep
                         entry (world_at 10 9 1 0 [None])))).
  right. split; [ reflexivity | discriminate ].
Defined.

(** A retry under a canceled context: the error of the context comes
    back, without any invocation and with [delay] as it was. *)
Lemma canceled_pause_returns_ctx_error_witness :
  call_loop (Some tooManyRequests) tt request (Call_sleep wait_canceled) 1
    (mkLocals minimumRateLimitDelay false) (world_at 10 6 4 0 [None])
  = Some (mkExit (Some canceled) (world_at 10 6 4 0 [None])
            [EvSleep minimumRateLimitDelay (Some canceled)]
            (mkLocals minimumRateLimitDelay false)).
Proof.
  apply (proj1 (@canceled_pause_returns_ctx_error Script unit
                  (Some tooManyRequests) tt request wait_canceled));
    reflexivity.
Defined.

(** Scenarios A and B of the tests. *)
Lemma single_attempt_pauses_witness :
  (exists x,
     call (Some tooManyRequests) tt request mock_sleep 1
       (world_at 10 6 4 0 [None]) = Some x /\
     result x = None /\
     events x = [EvWork (result x)] /\
     total_time (pauses (events x)) = 0) /\
  (exists x,
     call (Some tooManyRequests) tt request mock_sleep 1
       (world_at 10 10 0 0 [None]) = Some x /\
     result x = None /\
     events x = [EvSleep minimumRateLimitDelay None; EvWork (result x)] /\
     total_time (pauses (events x)) = minimumRateLimitDelay).
Proof.
  split.
  - apply (proj1 (@single_attempt_pauses Script unit (Some tooManyRequests)
                    tt request mock_sleep 0%nat (world_at 10 6 4 0 [None]))).
    + left. reflexivity.
    + reflexivity.
  - apply (proj2 (@single_attempt_pauses Script unit (Some tooManyRequests)
                    tt request mock_sleep 0%nat (world_at 10 10 0 0 [None]))
             (snd (mock_sleep tt minimumRateLimitDelay
                     (world_at 10 10 0 0 [None])))).
    + reflexivity.
    + discriminate.
    + reflexivity.
    + reflexivity.
Defined.

(** Negative and inconsistent counters are stored as they come. *)
Lemma Get_after_Update_witness :
  fst (Get (Update (-3) 7 (-1) (world_at 10 6 4 Minute [None])))
  = (-3, 7, -1, unixEpoch + Minute).
Proof.
  apply (@Get_after_Update Script (-3) 7 (-1)
           (world_at 10 6 4 Minute [None])
           (Update (-3) 7 (-1) (world_at 10 6 4 Minute [None]))).
  reflexivity.
Defined.

(** Across three pauses and three invocations the snapshot stays. *)
Lemma snapshot_written_only_by_Update_witness :
  exists x,
    call (Some tooManyRequests) tt request mock_sleep 3
      (world_at 10 10 0 0 (rejected_times 2)) = Some x /\
    snapshot (limiter (final x)) = (10, 10, 0, unixEpoch).
Proof.
  eexists. split; [ vm_compute; reflexivity | ].
  apply (proj2 (@snapshot_written_only_by_Update Script unit
                  (Some tooManyRequests) tt request mock_sleep)
           (fun s => s = (10, 10, 0, unixEpoch))) with
    (fuel := 3%nat) (w := world_at 10 10 0 0 (rejected_times 2)).
  - intros w. unfold request. destruct (attempts (env w)); intros H; exact H.
  - intros d w H. exact H.
  - reflexivity.
  - vm_compute. reflexivity.
Defined.

(** The wrapping error of the examples matches the sentinel. *)
Lemma wrapped_sentinel_is_retried_witness :
  Is wrapped (Some tooManyRequests) = true.
Proof.
  apply (proj1 (@wrapped_sentinel_is_retried Script unit
                  (Some tooManyRequests) tt request mock_sleep)).
  reflexivity.
Defined.

(** A never updated [RateLimit] at the Unix epoch. *)
Lemma zero_value_never_pauses_first_witness :
  remaining (limiter (mkWorld unixEpoch zeroRateLimit (mkScript [None] 0))) = 0 /\
  pause_due entry (mkWorld unixEpoch zeroRateLimit (mkScript [None] 0)) = false /\
  events_of (iteration (Some tooManyRequests) tt request mock_sleep entry
               (mkWorld unixEpoch zeroRateLimit (mkScript [None] 0)))
  = [EvWork (fst (request (mkWorld unixEpoch zeroRateLimit (mkScript [None] 0))))] /\
  forall fuel x,
    call (Some tooManyRequests) tt request mock_sleep fuel
      (mkWorld unixEpoch zeroRateLimit (mkScript [None] 0)) = Some x ->
    exists rest,
      events x =
      EvWork (fst (request (mkWorld unixEpoch zeroRateLimit (mkScript [None] 0))))
      :: rest.
Proof.
  apply (@zero_value_never_pauses_first Script unit (Some tooManyRequests)
           tt request mock_sleep
           (mkWorld unixEpoch zeroRateLimit (mkScript [None] 0))).
  - reflexivity.
  - apply Z.le_refl.
Defined.

(** A snapshot exactly ten seconds old with nothing remaining: no pause. *)
Lemma freshness_window_exclusive_witness :
  events_of (iteration (Some tooManyRequests) tt request mock_sleep entry
               (world_at 10 10 0 (10 * Second) [None]))
  = [EvWork None].
Proof.
  apply (proj1 (@freshness_window_exclusive Script unit (Some tooManyRequests)
                  tt request mock_sleep entry
                  (world_at 10 10 0 (10 * Second) [None]) eq_refl)).
  vm_compute. discriminate.
Defined.

(** ** Every finished run, whatever the closures do *)

Lemma asked_app (a b : list Event) : asked (a ++ b) = asked a ++ asked b.
Proof.
  induction a as [| e a IH]; [ reflexivity | ].
  destruct e as [d r | r]; simpl; rewrite IH; reflexivity.
Qed.

(** After 56 doublings nothing is left of [minimumRateLimitDelay] in 64
    bits. *)
Lemma minimum_vanishes (i : nat) :
  (56 <= i)%nat -> wrap64 (minimumRateLimitDelay * 2 ^ Z.of_nat i) = 0.
Proof.
  intros Hi.
  replace (Z.of_nat i) with (56 + (Z.of_nat i - 56)) by lia.
  rewrite Z.pow_add_r by lia.
  replace (minimumRateLimitDelay * (2 ^ 56 * 2 ^ (Z.of_nat i - 56)))
    with (9765625 * 2 ^ (Z.of_nat i - 56) * 2 ^ 64).
  - unfold wrap64. rewrite Z.add_comm, Z.mod_add by lia. reflexivity.
  - replace minimumRateLimitDelay with (9765625 * 2 ^ 8) by reflexivity.
    replace (2 ^ 64) with (2 ^ 8 * 2 ^ 56) by reflexivity. ring.
Qed.

Section AnyRun.

Variables St Context : Type.
Variable ErrTooManyRequests : error.
Variable ctx : Context.
Variable f : Work St.
Variable sleep : Sleeper St Context.

Local Abbreviation turn := (iteration ErrTooManyRequests ctx f sleep).
Local Abbreviation try := (attempt ErrTooManyRequests f).
Local Abbreviation loop := (call_loop ErrTooManyRequests ctx f sleep).
Local Abbreviation quota err := (Is err ErrTooManyRequests = true).

(** A turn, by the branch it takes. *)
Lemma turn_shape (l : Locals) (w : World St) :
  turn l w =
  if pause_due l w then
    match sleep ctx (delay l) (snd (Get w)) with
    | (Some e, w') => (l, w', [EvSleep (delay l) (Some e)], Return (Some e))
    | (None, w') =>
        try (mkLocals (mul64 (delay l) 2) (first l)) w'
          [EvSleep (delay l) None]
    end
  else try l (snd (Get w)) [].
Proof.
  destruct (pause_due l w) eqn:Hp.
  - destruct (sleep ctx (delay l) (snd (Get w))) as [[e |] w'] eqn:Hs.
    + eapply iteration_aborted; eassumption.
    + eapply iteration_slept; eassumption.
  - apply iteration_direct; assumption.
Qed.

Lemma loop_asked (fuel : nat) : forall l w x,
  loop fuel l w = Some x ->
  asked (events x) = backoff (delay l) (List.length (asked (events x))).
Proof.
  induction fuel as [| fuel IH]; intros l w x; [ discriminate | ].
  simpl call_loop. rewrite turn_shape.
  destruct (pause_due l w).
  - destruct (sleep ctx (delay l) (snd (Get w))) as [[e |] w'].
    + intros H. injection H as <-. reflexivity.
    + destruct (attempt_cases ErrTooManyRequests f
                  (mkLocals (mul64 (delay l) 2) (first l)) w'
                  [EvSleep (delay l) None]) as [[_ Ha] | [_ Ha]]; rewrite Ha.
      * intros H. injection H as <-. reflexivity.
      * destruct (loop fuel _ (snd (f w'))) as [x' |] eqn:Hrun;
          [ | discriminate ].
        simpl. intros H. injection H as <-. simpl.
        apply IH in Hrun. simpl in Hrun. f_equal. exact Hrun.
  - destruct (attempt_cases ErrTooManyRequests f l (snd (Get w)) [])
      as [[_ Ha] | [_ Ha]]; rewrite Ha.
    + intros H. injection H as <-. reflexivity.
    + destruct (loop fuel _ (snd (f (snd (Get w))))) as [x' |] eqn:Hrun;
        [ | discriminate ].
      simpl. intros H. injection H as <-. simpl.
      apply IH in Hrun. simpl in Hrun. exact Hrun.
Qed.

(** X1.  In every finished run of [call], whatever [f] returns and
    whatever [sleep] does, the [i]-th sleep is asked for
    [minimumRateLimitDelay * 2^i] reduced to 64 bits; from the 57th
    sleep on (i >= 56) that is a duration of zero. *)
Theorem call_sleep_schedule (fuel : nat) (w : World St) (x : Exit St) :
  call ErrTooManyRequests ctx f sleep fuel w = Some x ->
  forall i, (i < List.length (asked (events x)))%nat ->
    nth i (asked (events x)) 0
    = wrap64 (minimumRateLimitDelay * 2 ^ Z.of_nat i) /\
    ((56 <= i)%nat -> nth i (asked (events x)) 0 = 0).
Proof.
  intros Hrun i Hi. unfold call in Hrun. apply loop_asked in Hrun.
  simpl delay in Hrun.
  assert (Hnth : nth i (asked (events x)) 0
                 = wrap64 (minimumRateLimitDelay * 2 ^ Z.of_nat i)).
  { rewrite Hrun.
    rewrite <- (wrap64_small (z := minimumRateLimitDelay)) at 1
      by (vm_compute; split; discriminate).
    apply backoff_nth. assumption. }
  split; [ assumption | ].
  intros H56. rewrite Hnth. apply minimum_vanishes. assumption.
Qed.

Lemma loop_account (fuel : nat) : forall l w x,
  loop fuel l w = Some x ->
  exists qs,
    Forall (fun r => quota r) qs /\
    List.length (asked (events x))
    = (List.length qs + if pause_due l w then 1 else 0)%nat /\
    ((works (events x) = qs ++ [result x] /\
      Is (result x) ErrTooManyRequests = false /\
      pauses (events x) = asked (events x))
     \/
     (works (events x) = qs /\
      exists evs d e,
        events x = evs ++ [EvSleep d (Some e)] /\ result x = Some e)).
Proof.
  induction fuel as [| fuel IH]; intros l w x; [ discriminate | ].
  simpl call_loop. rewrite turn_shape.
  destruct (pause_due l w) eqn:Hp.
  - destruct (sleep ctx (delay l) (snd (Get w))) as [[e |] w'].
    + intros H. injection H as <-. exists []. simpl.
      split; [ constructor | ]. split; [ reflexivity | ].
      right. split; [ reflexivity | ]. exists [], (delay l), e.
      split; reflexivity.
    + destruct (attempt_cases ErrTooManyRequests f
                  (mkLocals (mul64 (delay l) 2) (first l)) w'
                  [EvSleep (delay l) None]) as [[Hok Ha] | [Hq Ha]];
        rewrite Ha.
      * intros H. injection H as <-. exists []. simpl.
        split; [ constructor | ]. split; [ reflexivity | ].
        left. repeat split. assumption.
      * destruct (loop fuel _ (snd (f w'))) as [x' |] eqn:Hrun;
          [ | discriminate ].
        simpl. intros H. injection H as <-. simpl.
        apply IH in Hrun. rewrite pause_due_eq in Hrun. simpl in Hrun.
        destruct Hrun as [qs [Hall [Hlen Hend]]].
        exists (fst (f w') :: qs).
        split; [ constructor; assumption | ].
        split; [ rewrite Hlen; simpl; lia | ].
        destruct Hend as [[Hw [Hres Hpa]] | [Hw [evs [d [e [Hev Hres]]]]]].
        -- left. rewrite Hw, Hpa. repeat split. assumption.
        -- right. rewrite Hw. split; [ reflexivity | ].
           exists (EvSleep (delay l) None :: EvWork (fst (f w')) :: evs), d, e.
           rewrite Hev. split; [ reflexivity | assumption ].
  - destruct (attempt_cases ErrTooManyRequests f l (snd (Get w)) [])
      as [[Hok Ha] | [Hq Ha]]; rewrite Ha.
    + intros H. injection H as <-. exists []. simpl.
      split; [ constructor | ]. split; [ reflexivity | ].
      left. repeat split. assumption.
    + destruct (loop fuel _ (snd (f (snd (Get w))))) as [x' |] eqn:Hrun;
        [ | discriminate ].
      simpl. intros H. injection H as <-. simpl.
      apply IH in Hrun. rewrite pause_due_eq in Hrun. simpl in Hrun.
      destruct Hrun as [qs [Hall [Hlen Hend]]].
      exists (fst (f (snd (Get w))) :: qs).
      split; [ constructor; assumption | ].
      split; [ rewrite Hlen; simpl; lia | ].
      destruct Hend as [[Hw [Hres Hpa]] | [Hw [evs [d [e [Hev Hres]]]]]].
      * left. rewrite Hw, Hpa. repeat split. assumption.
      * right. rewrite Hw. split; [ reflexivity | ].
        exists (EvWork (fst (f (snd (Get w)))) :: evs), d, e.
        rewrite Hev. split; [ reflexivity | assumption ].
Qed.

(** X2.  In every finished run of [call] the sleeps asked for are as
    many as the rejected invocations of [f], plus one when the snapshot
    called for a pause before the first attempt.  Either the run ends
    with the first result of [f] that does not match the sentinel, all
    earlier results matching it and all pauses completed, or it ends
    with the error of a sleep, all results of [f] so far matching the
    sentinel. *)
Theorem call_run_account (fuel : nat) (w : World St) (x : Exit St) :
  call ErrTooManyRequests ctx f sleep fuel w = Some x ->
  exists qs,
    Forall (fun r => quota r) qs /\
    List.length (asked (events x)) = (List.length qs + preventive w)%nat /\
    ((works (events x) = qs ++ [result x] /\
      Is (result x) ErrTooManyRequests = false /\
      pauses (events x) = asked (events x))
     \/
     (works (events x) = qs /\
      exists evs d e,
        events x = evs ++ [EvSleep d (Some e)] /\ result x = Some e)).
Proof.
  intros Hrun. unfold call in Hrun. apply loop_account in Hrun. exact Hrun.
Qed.

End AnyRun.

(** ** Decimal numbers: [Itoa] and [Atoi] *)

Lemma digit_char_digit (d : Z) :
  0 <= d <= 9 -> is_digit (digit_char d) = true /\ digit_of (digit_char d) = d.
Proof.
  intros H.
  assert (Hd : d = 0 \/ d = 1 \/ d = 2 \/ d = 3 \/ d = 4 \/ d = 5 \/ d = 6
               \/ d = 7 \/ d = 8 \/ d = 9) by lia.
  repeat (destruct Hd as [-> | Hd]; [ split; reflexivity | ]).
  subst d. split; reflexivity.
Qed.

Lemma digit_not_sign (c : ascii) :
  is_digit c = true -> Ascii.eqb c "+" = false /\ Ascii.eqb c "-" = false.
Proof.
  intros H. split.
  - destruct (Ascii.eqb_spec c "+") as [-> |]; [ discriminate | reflexivity ].
  - destruct (Ascii.eqb_spec c "-") as [-> |]; [ discriminate | reflexivity ].
Qed.

Lemma parse_digits_cons (n : Z) (c : ascii) (rest : string) :
  parse_digits n (String c rest) =
  if is_digit c then
    if maxUint64 / 10 + 1 <=? n then (maxUint64, Some ErrRange)
    else if maxUint64 <? n * 10 + digit_of c then (maxUint64, Some ErrRange)
         else parse_digits (n * 10 + digit_of c) rest
  else (0, Some ErrSyntax).
Proof. reflexivity. Qed.

(** Parsing the digits of [n] gives [n] back. *)
Lemma parse_digits_digits (k : nat) : forall (n : Z) (acc : string),
  0 <= n < 10 ^ Z.of_nat k -> n <= maxUint64 ->
  parse_digits 0 (digits k n acc) = parse_digits n acc.
Proof.
  induction k as [| k IH]; intros n acc Hn Hmax.
  - simpl in *. replace n with 0 by lia. reflexivity.
  - rewrite Nat2Z.inj_succ, Z.pow_succ_r in Hn by lia.
    pose proof (Z.div_mod n 10 ltac:(lia)) as Hdm.
    pose proof (Z.mod_pos_bound n 10 ltac:(lia)) as Hr.
    destruct (digit_char_digit (d := n mod 10) ltac:(lia)) as [Hisd Hval].
    assert (Hstep : forall m, 0 <= m -> m * 10 + n mod 10 = n ->
              parse_digits m (String (digit_char (n mod 10)) acc)
              = parse_digits n acc).
    { intros m Hm Heq. rewrite parse_digits_cons, Hisd, Hval.
      replace (maxUint64 / 10 + 1 <=? m) with false.
      - rewrite Heq. replace (maxUint64 <? n) with false; [ reflexivity | ].
        symmetry. apply Z.ltb_ge. assumption.
      - symmetry. apply Z.leb_gt.
        assert (maxUint64 / 10 = 1844674407370955161) by reflexivity.
        assert (maxUint64 = 18446744073709551615) by reflexivity. lia. }
    simpl digits. destruct (n / 10 =? 0) eqn:Hq.
    + apply Z.eqb_eq in Hq. apply Hstep; lia.
    + apply Z.eqb_neq in Hq. rewrite IH.
      * apply Hstep; lia.
      * lia.
      * lia.
Qed.

Lemma digits_head (k : nat) : forall (n : Z) (acc : string),
  (0 < k)%nat \/ starts_with_digit acc = true ->
  0 <= n ->
  starts_with_digit (digits k n acc) = true.
Proof.
  induction k as [| k IH]; intros n acc Hk Hn.
  - destruct Hk as [Hk | Hk]; [ lia | exact Hk ].
  - pose proof (Z.mod_pos_bound n 10 ltac:(lia)) as Hr.
    destruct (digit_char_digit (d := n mod 10) ltac:(lia)) as [Hisd _].
    simpl digits. destruct (n / 10 =? 0).
    + exact Hisd.
    + apply IH; [ right; exact Hisd | ].
      apply Z.div_pos; lia.
Qed.

(** Parsing a string that begins with a digit is parsing its digits. *)
Lemma ParseInt_unsigned (s : string) :
  starts_with_digit s = true ->
  ParseInt s =
  let '(un, err) := parse_digits 0 s in
  match err with
  | Some ErrSyntax => (0, err)
  | _ => if 2 ^ 63 <=? un then (2 ^ 63 - 1, Some ErrRange)
         else (wrap64 un, None)
  end.
Proof.
  destruct s as [| c rest]; [ discriminate | ].
  simpl starts_with_digit. intros Hc.
  destruct (@digit_not_sign c Hc) as [Hplus Hminus].
  unfold ParseInt. rewrite Hplus, Hminus. simpl orb. cbv iota.
  unfold ParseUint.
  destruct (parse_digits 0 (String c rest)) as [un [[|] |]]; try reflexivity.
Qed.

Lemma ParseInt_Itoa (i : Z) :
  - 2 ^ 63 <= i < 2 ^ 63 -> ParseInt (Itoa i) = (i, None).
Proof.
  intros Hi. unfold Itoa.
  assert (Hmax : maxUint64 = 18446744073709551615) by reflexivity.
  assert (Hpow : 10 ^ Z.of_nat 20 = 100000000000000000000) by reflexivity.
  assert (H63 : 2 ^ 63 = 9223372036854775808) by reflexivity.
  destruct (i <? 0) eqn:Hneg.
  - apply Z.ltb_lt in Hneg.
    assert (Hhead : starts_with_digit (digits 20 (- i) EmptyString) = true)
      by (apply digits_head; [ left; lia | lia ]).
    assert (Hparse : parse_digits 0 (digits 20 (- i) EmptyString) = (- i, None))
      by (rewrite parse_digits_digits by lia; reflexivity).
    unfold ParseInt. change (Ascii.eqb "-" "-") with true.
    change (Ascii.eqb "-" "+") with false. simpl orb. cbv iota.
    unfold ParseUint.
    destruct (digits 20 (- i) EmptyString) as [| c rest] eqn:Hd;
      [ discriminate | ].
    rewrite Hparse. simpl negb. simpl andb.
    match goal with
    | |- context [ ?a <? - i ] => destruct (a <? - i) eqn:Hlt
    end.
    { apply Z.ltb_lt in Hlt. change (Z.pow_pos 2 63) with (2 ^ 63) in Hlt. lia. }
    apply (f_equal (fun z => (z, @None NumError))).
    unfold wrap64.
    destruct (Z.eq_dec i (- 2 ^ 63)) as [-> | Hne].
    + reflexivity.
    + rewrite (Z.mod_small (- i + 2 ^ 63)) by lia.
      replace (- (- i + 2 ^ 63 - 2 ^ 63) + 2 ^ 63) with (i + 2 ^ 63) by ring.
      rewrite Z.mod_small by lia. ring.
  - apply Z.ltb_ge in Hneg.
    rewrite ParseInt_unsigned by (apply digits_head; [ left; lia | lia ]).
    rewrite parse_digits_digits by lia.
    change (parse_digits i EmptyString) with (i, @None NumError).
    cbv beta iota zeta.
    replace (2 ^ 63 <=? i) with false by (symmetry; apply Z.leb_gt; lia).
    apply (f_equal (fun z => (z, @None NumError))).
    apply wrap64_small. unfold minDuration, maxDuration. lia.
Qed.

(** X3.  [Atoi] reads back what [Itoa] writes: for every 64-bit [int]
    [i], [Atoi(Itoa(i))] is [i] with no error; so [Itoa] never gives
    the same string for two different numbers. *)
Theorem Atoi_Itoa (i : Z) :
  - 2 ^ 63 <= i < 2 ^ 63 ->
  Atoi (Itoa i) = (i, None) /\
  forall j, - 2 ^ 63 <= j < 2 ^ 63 -> Itoa i = Itoa j -> i = j.
Proof.
  intros Hi. split; [ apply ParseInt_Itoa; assumption | ].
  intros j Hj Heq.
  pose proof (ParseInt_Itoa Hi) as H1. pose proof (ParseInt_Itoa Hj) as H2.
  rewrite Heq, H2 in H1. injection H1 as H1. symmetry. exact H1.
Qed.

(** ** The client *)

Lemma existsb_eqb_In (c : string) (l : list string) :
  existsb (String.eqb c) l = true <-> In c l.
Proof.
  rewrite existsb_exists. split.
  - intros [y [Hin Heq]]. apply String.eqb_eq in Heq. subst y. exact Hin.
  - intros Hin. exists c. split; [ exact Hin | apply String.eqb_refl ].
Qed.

Lemma currency_cases (c : string) :
  (In c Discogs.supported_currencies /\ Discogs.currency c = (c, None))
  \/ (c = ""%string /\ Discogs.currency c = ("USD"%string, None))
  \/ (~ In c Discogs.supported_currencies /\ c <> ""%string /\
      Discogs.currency c = (""%string, Some Discogs.ErrCurrencyNotSupported)).
Proof.
  unfold Discogs.currency.
  destruct (existsb (String.eqb c) Discogs.supported_currencies) eqn:Hin.
  - left. split; [ apply existsb_eqb_In; exact Hin | reflexivity ].
  - right. destruct (String.eqb_spec c "") as [-> | Hne].
    + left. split; reflexivity.
    + right. split; [ | split; [ exact Hne | reflexivity ] ].
      intros H. apply existsb_eqb_In in H. rewrite H in Hin. discriminate.
Qed.

(** X4.  [currency] succeeds exactly on the empty string and on the
    twelve codes of its list; what it then returns is one of the twelve
    codes, which [currency] accepts and returns unchanged; when it fails
    it returns the empty string and [ErrCurrencyNotSupported]. *)
Theorem currency_normalises (c : string) :
  (snd (Discogs.currency c) = None <->
   c = ""%string \/ In c Discogs.supported_currencies) /\
  (snd (Discogs.currency c) = None ->
   In (fst (Discogs.currency c)) Discogs.supported_currencies /\
   Discogs.currency (fst (Discogs.currency c))
   = (fst (Discogs.currency c), None)) /\
  (snd (Discogs.currency c) <> None ->
   Discogs.currency c = (""%string, Some Discogs.ErrCurrencyNotSupported)).
Proof.
  destruct (currency_cases c) as [[Hin Hc] | [[He Hc] | [Hnin [Hne Hc]]]];
    rewrite Hc; simpl.
  - split; [ split; auto | ]. split; [ | intros H; contradiction H; reflexivity ].
    intros _. split; assumption.
  - split; [ split; auto | ]. split; [ | intros H; contradiction H; reflexivity ].
    intros _. split; [ simpl; auto | reflexivity ].
  - split; [ split; [ discriminate | intros [H | H]; contradiction ] | ].
    split; [ discriminate | reflexivity ].
Qed.

Section ClientFacts.

Variables St Context HttpClient Values Body Value : Type.
Variable ErrTooManyRequests ErrUnauthorized : error.
Variable NewRequestWithContext : Context -> string -> error.
Variable Encode : Values -> string.
Variable Do :
  HttpClient -> Context -> string -> Discogs.Header -> World St ->
  (Discogs.Response Body + errval) * World St.
Variable ReadAll : Body -> string * error.
Variable Unmarshal : string -> option Value -> option Value * error.
Variables DatabaseService SearchService : Type.
Variable newDatabaseService :
  Discogs.requestFunc St Context Values Value -> string -> string ->
  DatabaseService.
Variable newSearchService :
  Discogs.requestFunc St Context Values Value -> string -> SearchService.
Variable zeroClient : HttpClient.

Local Abbreviation request :=
  (Discogs.request ErrTooManyRequests ErrUnauthorized NewRequestWithContext
     Encode Do ReadAll Unmarshal).
Local Abbreviation New :=
  (Discogs.New ErrTooManyRequests ErrUnauthorized NewRequestWithContext
     Encode Do ReadAll Unmarshal newDatabaseService newSearchService
     zeroClient).

(** X5.  [New] checks the user agent before the currency: without
    options, or with an empty [UserAgent], it fails with
    [ErrUserAgentInvalid] whatever the currency is; with a user agent
    and a currency that [currency] refuses it fails with
    [ErrCurrencyNotSupported].  In both cases it returns no client and
    leaves the options as they were. *)
Theorem New_validation (o : option (Discogs.Options HttpClient)) :
  (o = None \/ (exists opts, o = Some opts /\ Discogs.UserAgent opts = ""%string) ->
   New o = (None, Some Discogs.ErrUserAgentInvalid, o)) /\
  (forall opts,
     o = Some opts -> Discogs.UserAgent opts <> ""%string ->
     snd (Discogs.currency (Discogs.Currency opts)) <> None ->
     New o = (None, Some Discogs.ErrCurrencyNotSupported, o)).
Proof.
  split.
  - intros [-> | [opts [-> Hua]]]; [ reflexivity | ].
    unfold Discogs.New. rewrite Hua. reflexivity.
  - intros opts -> Hua Hcur. unfold Discogs.New.
    destruct (String.eqb_spec (Discogs.UserAgent opts) "") as [H | _];
      [ contradiction | ].
    destruct (currency_cases (Discogs.Currency opts))
      as [[_ Hc] | [[_ Hc] | [_ [_ Hc]]]]; rewrite Hc in *; simpl in Hcur;
      try (contradiction Hcur; reflexivity).
    reflexivity.
Qed.

(** X6.  With a user agent and an accepted currency [New] succeeds.  The
    options afterwards carry a non-empty URL, the one given or else the
    default one written into them, and are otherwise unchanged; the
    collection and marketplace services are rooted at that URL and the
    marketplace service holds the normalised currency.  All requests go
    through one function, which sends the user agent, sends the token
    as [Authorization] only when there is one, and uses the rate limit
    record of the options. *)
Theorem New_success (opts : Discogs.Options HttpClient) :
  Discogs.UserAgent opts <> ""%string ->
  snd (Discogs.currency (Discogs.Currency opts)) = None ->
  exists d opts' client header,
    New (Some opts) = (Some d, None, Some opts') /\
    Discogs.URL opts' =
      (if String.eqb (Discogs.URL opts) "" then Discogs.discogsAPI
       else Discogs.URL opts) /\
    Discogs.URL opts' <> ""%string /\
    (Discogs.Currency opts', Discogs.UserAgent opts', Discogs.Token opts',
     Discogs.Client opts', Discogs.OptRateLimit opts')
    = (Discogs.Currency opts, Discogs.UserAgent opts, Discogs.Token opts,
       Discogs.Client opts, Discogs.OptRateLimit opts) /\
    Discogs.cs_url (Discogs.Collection d)
    = (Discogs.URL opts' ++ "/users")%string /\
    Discogs.mp_url (Discogs.MarketPlace d)
    = (Discogs.URL opts' ++ "/marketplace")%string /\
    Discogs.mp_currency (Discogs.MarketPlace d)
    = fst (Discogs.currency (Discogs.Currency opts)) /\
    Discogs.cs_request (Discogs.Collection d)
    = (fun ctx path params resp =>
         request ctx client header (Discogs.OptRateLimit opts) path params resp) /\
    Discogs.mp_request (Discogs.MarketPlace d)
    = Discogs.cs_request (Discogs.Collection d) /\
    client = match Discogs.Client opts with Some c => c | None => zeroClient end /\
    Discogs.Header_Get "User-Agent" header = Discogs.UserAgent opts /\
    Discogs.Header_Get "Authorization" header
    = (if String.eqb (Discogs.Token opts) "" then ""
       else "Discogs token=" ++ Discogs.Token opts)%string.
Proof.
  intros Hua Hcur. unfold Discogs.New.
  destruct (String.eqb_spec (Discogs.UserAgent opts) "") as [H | _];
    [ contradiction | ].
  destruct (Discogs.currency (Discogs.Currency opts)) as [cur err] eqn:Hc.
  simpl in Hcur. subst err.
  destruct opts as [url c ua tok cl rlp]. simpl in *.
  destruct (String.eqb_spec url "") as [-> | Hurl];
    destruct (String.eqb_spec tok "") as [-> | Htok]; simpl;
    do 4 eexists; (split; [ reflexivity | ]); simpl;
    repeat (split; try reflexivity); try discriminate; try assumption.
Qed.

(** The counters [request] reads off the headers of a response. *)
Local Abbreviation header_total r :=
  (fst (Atoi (Discogs.Header_Get "X-Discogs-Ratelimit" (Discogs.RespHeader r)))).
Local Abbreviation header_used r :=
  (fst (Atoi (Discogs.Header_Get "X-Discogs-Ratelimit-Used"
                (Discogs.RespHeader r)))).
Local Abbreviation header_remaining r :=
  (fst (Atoi (Discogs.Header_Get "X-Discogs-Ratelimit-Remaining"
                (Discogs.RespHeader r)))).

Section OneRequest.

Variable ctx : Context.
Variable client : HttpClient.
Variable header : Discogs.Header.
Variable path : string.
Variable params : Values.
Variable resp : option Value.
Variable w : World St.

(** The request is well formed. *)
Hypothesis well_formed :
  NewRequestWithContext ctx (path ++ "?" ++ Encode params) = None.

(** What [request] does once a response has arrived. *)
Lemma request_responded (rl : Discogs.RateLimitPtr)
  (response : Discogs.Response Body) (w1 : World St) :
  Do client ctx (path ++ "?" ++ Encode params) header w = (inl response, w1) ->
  request ctx client header rl path params resp w =
  let w2 :=
    match rl with
    | Discogs.nilRateLimit => w1
    | Discogs.theRateLimit =>
        Update (header_total response) (header_used response)
          (header_remaining response) w1
    end in
  if negb (Discogs.StatusCode response =? Discogs.StatusOK) then
    if Discogs.StatusCode response =? Discogs.StatusUnauthorized then
      ((resp, ErrUnauthorized), w2)
    else if Discogs.StatusCode response =? Discogs.StatusTooManyRequests then
      ((resp, ErrTooManyRequests), w2)
    else ((resp, Some (Discogs.unknown_error (Discogs.Status response))), w2)
  else
    match ReadAll (Discogs.RespBody response) with
    | (_, Some e) => ((resp, Some e), w2)
    | (body, None) => (Unmarshal body resp, w2)
    end.
Proof.
  intros HDo. unfold Discogs.request. rewrite well_formed, HDo.
  cbv zeta.
  destruct (negb (Discogs.StatusCode response =? Discogs.StatusOK));
    [ reflexivity | ].
  destruct (ReadAll (Discogs.RespBody response)) as [body [e |]]; reflexivity.
Qed.

Lemma request_state (rl : Discogs.RateLimitPtr)
  (response : Discogs.Response Body) (w1 : World St) :
  Do client ctx (path ++ "?" ++ Encode params) header w = (inl response, w1) ->
  snd (request ctx client header rl path params resp w) =
  match rl with
  | Discogs.nilRateLimit => w1
  | Discogs.theRateLimit =>
      Update (header_total response) (header_used response)
        (header_remaining response) w1
  end.
Proof.
  intros HDo. rewrite (request_responded rl HDo). cbv zeta.
  destruct (negb _); [ destruct (_ =? _); [ | destruct (_ =? _) ] | ];
    try reflexivity.
  destruct (ReadAll (Discogs.RespBody response)) as [body [e |]]; reflexivity.
Qed.

(** X7.  Every response that arrives, whatever its status and whether or
    not its body can be read and decoded, makes [request] overwrite the
    rate limit record with the three counters read off its headers and
    with the time of its arrival; with a nil record, or when the
    exchange itself fails, [request] leaves the state as the exchange
    left it. *)
Theorem request_feeds_rate_limit :
  (forall response w1,
     Do client ctx (path ++ "?" ++ Encode params) header w
     = (inl response, w1) ->
     snapshot (limiter (snd (request ctx client header Discogs.theRateLimit
                               path params resp w)))
     = (header_total response, header_used response,
        header_remaining response, Now w1) /\
     snd (request ctx client header Discogs.nilRateLimit path params resp w)
     = w1) /\
  (forall e w1 rl,
     Do client ctx (path ++ "?" ++ Encode params) header w = (inr e, w1) ->
     request ctx client header rl path params resp w = ((resp, Some e), w1)).
Proof.
  split.
  - intros response w1 HDo. rewrite !(request_state _ HDo).
    split; reflexivity.
  - intros e w1 rl HDo. unfold Discogs.request.
    rewrite well_formed, HDo. reflexivity.
Qed.

(** X8.  When the three headers are decimal numbers within the range
    of an [int], the record holds exactly these numbers afterwards. *)
Theorem request_stores_decimal_headers
  (response : Discogs.Response Body) (w1 : World St) (a b c : Z) :
  Do client ctx (path ++ "?" ++ Encode params) header w = (inl response, w1) ->
  - 2 ^ 63 <= a < 2 ^ 63 -> - 2 ^ 63 <= b < 2 ^ 63 -> - 2 ^ 63 <= c < 2 ^ 63 ->
  Discogs.Header_Get "X-Discogs-Ratelimit" (Discogs.RespHeader response)
  = Itoa a ->
  Discogs.Header_Get "X-Discogs-Ratelimit-Used" (Discogs.RespHeader response)
  = Itoa b ->
  Discogs.Header_Get "X-Discogs-Ratelimit-Remaining"
    (Discogs.RespHeader response) = Itoa c ->
  snapshot (limiter (snd (request ctx client header Discogs.theRateLimit
                            path params resp w)))
  = (a, b, c, Now w1).
Proof.
  intros HDo Ha Hb Hc Hta Htb Htc. rewrite (request_state _ HDo).
  unfold Atoi. rewrite Hta, Htb, Htc, !ParseInt_Itoa by assumption.
  reflexivity.
Qed.

(** X9.  After a response whose [X-Discogs-Ratelimit-Remaining] header
    reads 1 or less, which includes a header that is missing or is not
    a number (read as 0), a [call] entered less than ten seconds after
    the arrival of that response, the record not having been written in
    between, pauses before its first attempt. *)
Theorem low_remaining_makes_next_call_pause
  (response : Discogs.Response Body) (w1 w2 : World St) :
  Do client ctx (path ++ "?" ++ Encode params) header w = (inl response, w1) ->
  header_remaining response <= 1 ->
  limiter w2 = limiter (snd (request ctx client header Discogs.theRateLimit
                               path params resp w)) ->
  Now w2 - Now w1 < 10 * Second ->
  pause_due entry w2 = true /\ preventive w2 = 1%nat.
Proof.
  intros HDo Hlow Hlim Hsoon.
  assert (Hp : pause_due entry w2 = true).
  { apply pause_due_iff. right. rewrite Hlim, (request_state _ HDo).
    split; [ exact Hsoon | exact Hlow ]. }
  split; [ exact Hp | ]. unfold preventive. rewrite Hp. reflexivity.
Qed.

End OneRequest.

End ClientFacts.

(** ** Runs that end with a result of the work: the state they leave *)

Section RetryState.

Variables St Context : Type.
Variable ErrTooManyRequests : error.
Variable ctx : Context.
Variable f : Work St.
Variable sleep : Sleeper St Context.

Local Abbreviation turn := (iteration ErrTooManyRequests ctx f sleep).
Local Abbreviation try := (attempt ErrTooManyRequests f).
Local Abbreviation loop := (call_loop ErrTooManyRequests ctx f sleep).

Variable rank : St -> nat.

Hypothesis sleep_done : forall d w,
  fst (sleep ctx d w) = None /\ rank (env (snd (sleep ctx d w))) = rank (env w).

Hypothesis work_rejected : forall w n,
  rank (env w) = S n ->
  Is (fst (f w)) ErrTooManyRequests = true /\ rank (env (snd (f w))) = n.

Hypothesis work_settled : forall w,
  rank (env w) = O -> Is (fst (f w)) ErrTooManyRequests = false.

Lemma run_from_final (n : nat) : forall (l : Locals) (w : World St) (k : nat),
  rank (env w) = n ->
  exists x w0,
    loop (S n + k) l w = Some x /\
    f w0 = (result x, final x) /\
    rank (env w0) = O /\
    List.length (works (events x)) = S n /\
    Is (result x) ErrTooManyRequests = false.
Proof.
  induction n as [| n IH]; intros l w k Hrank.
  - destruct (turn_head ErrTooManyRequests ctx f sleep rank sleep_done l w) as [w1 [Hr1 Hturn]].
    rewrite Hrank in Hr1. pose proof (work_settled _ Hr1) as Hok.
    simpl call_loop. rewrite Hturn.
    destruct (pause_due l w); rewrite attempt_return by assumption;
      eexists; exists w1; (split; [ reflexivity | ]); simpl;
      (split; [ apply surjective_pairing | ]); repeat split; assumption.
  - destruct (turn_head ErrTooManyRequests ctx f sleep rank sleep_done l w) as [w1 [Hr1 Hturn]].
    rewrite Hrank in Hr1. destruct (work_rejected _ Hr1) as [Hq Hr2].
    change (loop (S (S n) + k) l w) with
      (let '(l', w', evs, st) := turn l w in
       match st with
       | Return err => Some (mkExit err w' evs l')
       | Next => option_map (after evs) (loop (S n + k) l' w')
       end).
    rewrite Hturn.
    destruct (pause_due l w); rewrite attempt_next by assumption;
      match goal with
      | |- context [ loop (S n + k) ?l' ?w' ] =>
          destruct (IH l' w' k Hr2) as [x [w0 [Hrun [Hf [Hr0 [Hlen Hres]]]]]]
      end;
      rewrite Hrun; simpl option_map;
      eexists; exists w0; (split; [ reflexivity | ]); simpl;
      (split; [ exact Hf | ]); (split; [ exact Hr0 | ]);
      (split; [ rewrite Hlen; reflexivity | exact Hres ]).
Qed.

End RetryState.

(** ** The rate limited methods *)

Section WrapperFacts.

Variables St Context Value : Type.
Variable ErrTooManyRequests : error.
Variable wait : Context -> Duration -> World St -> Selected * World St.
Variable ctx : Context.
Variable method : World St -> (option Value * error) * World St.

Local Abbreviation rate_limited :=
  (Discogs.rate_limited ErrTooManyRequests wait ctx method).
Local Abbreviation rate_limited_run :=
  (Discogs.rate_limited_run ErrTooManyRequests wait ctx method).
Local Abbreviation work := (Discogs.limited_work method).
Local Abbreviation nap := (Call_sleep (Discogs.framed_wait (Value := Value) wait)).

Lemma unframe_frame (v : option Value) (w : World St) :
  Discogs.unframe (Discogs.frame v w) = w.
Proof. destruct w. reflexivity. Qed.

Lemma unframe_Get (w : World (option Value * St)) :
  Discogs.unframe (snd (Get w)) = snd (Get (Discogs.unframe w)).
Proof. reflexivity. Qed.

Lemma pause_due_frame (l : Locals) (v : option Value) (w : World St) :
  pause_due l (Discogs.frame v w) = pause_due l w.
Proof. reflexivity. Qed.

(** The closure stores the value and returns the error of the method. *)
Lemma work_method (w : World (option Value * St)) :
  work w =
  (snd (fst (method (Discogs.unframe w))),
   Discogs.frame (fst (fst (method (Discogs.unframe w))))
     (snd (method (Discogs.unframe w)))).
Proof.
  unfold Discogs.limited_work.
  destruct (method (Discogs.unframe w)) as [[v err] w']. reflexivity.
Qed.

Section Served.

(** [rank s] counts the invocations of the method that will still be
    rejected when the state behind it is [s]. *)
Variable rank : St -> nat.

(** The timer always fires first, and waiting leaves the count alone. *)
Hypothesis wait_done : forall d w,
  fst (wait ctx d w) = TimerFired /\
  rank (env (snd (wait ctx d w))) = rank (env w).

Hypothesis method_rejected : forall w n,
  rank (env w) = S n ->
  Is (snd (fst (method w))) ErrTooManyRequests = true /\
  rank (env (snd (method w))) = n.

Hypothesis method_settled : forall w,
  rank (env w) = O ->
  Is (snd (fst (method w))) ErrTooManyRequests = false.

Lemma nap_done (d : Duration) (w : World (option Value * St)) :
  fst (nap ctx d w) = None /\
  rank (snd (env (snd (nap ctx d w)))) = rank (snd (env w)).
Proof.
  unfold Call_sleep, Discogs.framed_wait.
  destruct (wait_done d (Discogs.unframe w)) as [Hsel Hrank].
  destruct (wait ctx d (Discogs.unframe w)) as [sel w'].
  simpl in Hsel, Hrank. subst sel. simpl. split; [ reflexivity | exact Hrank ].
Qed.

Lemma work_rejected_framed (w : World (option Value * St)) (n : nat) :
  rank (snd (env w)) = S n ->
  Is (fst (work w)) ErrTooManyRequests = true /\
  rank (snd (env (snd (work w)))) = n.
Proof.
  intros H. rewrite work_method. simpl.
  apply (method_rejected (Discogs.unframe w)). exact H.
Qed.

Lemma work_settled_framed (w : World (option Value * St)) :
  rank (snd (env w)) = O ->
  Is (fst (work w)) ErrTooManyRequests = false.
Proof.
  intros H. rewrite work_method. simpl.
  apply (method_settled (Discogs.unframe w)). exact H.
Qed.

Lemma rate_limited_served (N k : nat) (w : World St) :
  rank (env w) = N ->
  exists x w0,
    rate_limited_run (S N + k) w = Some x /\
    rate_limited (S N + k) w = Some (method w0) /\
    rank (env w0) = O /\
    List.length (works (events x)) = S N /\
    Is (snd (fst (method w0))) ErrTooManyRequests = false.
Proof.
  intros Hrank.
  destruct (@run_from_final _ _ ErrTooManyRequests ctx work nap
              (fun s => rank (snd s)) nap_done work_rejected_framed
              work_settled_framed N entry (Discogs.frame None w) k Hrank)
    as [x [w0 [Hrun [Hf [Hr0 [Hlen Hres]]]]]].
  exists x, (Discogs.unframe w0).
  assert (Hrun' : rate_limited_run (S N + k) w = Some x) by exact Hrun.
  split; [ exact Hrun' | ].
  rewrite work_method in Hf. injection Hf as Hres' Hfin.
  split.
  - unfold Discogs.rate_limited. rewrite Hrun'. rewrite <- Hfin, <- Hres'.
    unfold Discogs.captured. simpl. rewrite unframe_frame.
    destruct (method (Discogs.unframe w0)) as [[v e] w']. reflexivity.
  - split; [ exact Hr0 | ]. split; [ exact Hlen | ].
    rewrite Hres'. exact Hres.
Qed.

(** X10.  A rate limited method whose inner method is rejected with
    the sentinel [N] times and then is not, no pause being cut short,
    invokes the inner method [N + 1] times and returns the value, the
    error and the state of the last invocation: nothing of the rejected
    invocations is returned. *)
Theorem rate_limited_returns_last (N k : nat) (w : World St) :
  rank (env w) = N ->
  exists x w0,
    rate_limited_run (S N + k) w = Some x /\
    List.length (works (events x)) = S N /\
    rate_limited (S N + k) w = Some (method w0) /\
    rank (env w0) = O /\
    Is (snd (fst (method w0))) ErrTooManyRequests = false.
Proof.
  intros Hrank.
  destruct (@rate_limited_served N k w Hrank)
    as [x [w0 [H1 [H2 [H3 [H4 H5]]]]]].
  exists x, w0. repeat split; assumption.
Qed.

End Served.

(** X11.  Cancellation in a rate limited method.  When the context is
    done during the pause before the first attempt, the method returns
    a nil value and the context's error without invoking the inner
    method.  When it is done during the pause that follows a first,
    rejected invocation, the method returns the context's error
    together with the value that the rejected invocation produced. *)
Theorem rate_limited_canceled (w : World St) (e : errval) :
  (forall w1 k,
     pause_due entry w = true ->
     wait ctx minimumRateLimitDelay (snd (Get w)) = (CtxDone e, w1) ->
     rate_limited (S k) w = Some ((None, Some e), w1) /\
     exists x, rate_limited_run (S k) w = Some x /\ works (events x) = []) /\
  (forall v1 e1 w1 w2 k,
     pause_due entry w = false ->
     method (snd (Get w)) = ((v1, e1), w1) ->
     Is e1 ErrTooManyRequests = true ->
     wait ctx minimumRateLimitDelay (snd (Get w1)) = (CtxDone e, w2) ->
     rate_limited (S (S k)) w = Some ((v1, Some e), w2) /\
     exists x, rate_limited_run (S (S k)) w = Some x /\
               works (events x) = [e1]).
Proof.
  split.
  - intros w1 k Hp Hwait.
    assert (Hrun : rate_limited_run (S k) w
                   = Some (mkExit (Some e) (Discogs.frame None w1)
                             [EvSleep minimumRateLimitDelay (Some e)] entry)).
    { unfold Discogs.rate_limited_run, Call, call. fold entry.
      simpl call_loop.
      erewrite iteration_aborted; [ reflexivity | exact Hp | ].
      unfold Call_sleep, Discogs.framed_wait.
      rewrite unframe_Get, unframe_frame. simpl delay. rewrite Hwait.
      reflexivity. }
    split.
    + unfold Discogs.rate_limited. rewrite Hrun. simpl.
      rewrite unframe_frame. reflexivity.
    + eexists. split; [ exact Hrun | reflexivity ].
  - intros v1 e1 w1 w2 k Hp Hm Hq Hwait.
    assert (Hrun : rate_limited_run (S (S k)) w
                   = Some (mkExit (Some e) (Discogs.frame v1 w2)
                             [EvWork e1;
                              EvSleep minimumRateLimitDelay (Some e)]
                             (mkLocals minimumRateLimitDelay false))).
    { unfold Discogs.rate_limited_run, Call, call. fold entry.
      change (call_loop ErrTooManyRequests ctx work nap (S (S k)) entry
                (Discogs.frame None w))
        with (let '(l', w', evs, st) :=
                iteration ErrTooManyRequests ctx work nap entry
                  (Discogs.frame None w) in
              match st with
              | Return err => Some (mkExit err w' evs l')
              | Next => option_map (after evs)
                          (call_loop ErrTooManyRequests ctx work nap (S k) l' w')
              end).
      rewrite iteration_direct by exact Hp.
      assert (Hw : work (snd (Get (Discogs.frame None w)))
                   = (e1, Discogs.frame v1 w1)).
      { rewrite work_method, unframe_Get, unframe_frame, Hm. reflexivity. }
      rewrite attempt_next by (rewrite Hw; exact Hq).
      rewrite Hw. simpl fst. simpl snd. simpl call_loop.
      erewrite iteration_aborted;
        [ reflexivity
        | apply pause_due_iff; left; reflexivity
        | ].
      unfold Call_sleep, Discogs.framed_wait.
      rewrite unframe_Get, unframe_frame. simpl delay. rewrite Hwait.
      reflexivity. }
    split.
    + unfold Discogs.rate_limited. rewrite Hrun. simpl.
      rewrite unframe_frame. reflexivity.
    + eexists. split; [ exact Hrun | reflexivity ].
Qed.

End WrapperFacts.

(** ** The collection service *)

Section CollectionFacts.

Variables St Context Values Value : Type.
Variable ErrInvalidUsername ErrInvalidSortKey ErrInvalidReleaseID : error.
Variable nilValues : Values.
Variable Pagination : Type.
Variable Sort : Pagination -> string.
Variable Pagination_params : option Pagination -> Values.
Variable s : Discogs.collectionService St Context Values Value.
Variable ctx : Context.

Local Abbreviation Folder := (Discogs.Folder ErrInvalidUsername nilValues s ctx).
Local Abbreviation CollectionFolders :=
  (Discogs.CollectionFolders ErrInvalidUsername nilValues s ctx).
Local Abbreviation CollectionItemsByFolder :=
  (Discogs.CollectionItemsByFolder ErrInvalidUsername ErrInvalidSortKey
     Sort Pagination_params s ctx).
Local Abbreviation CollectionItemsByRelease :=
  (Discogs.CollectionItemsByRelease ErrInvalidUsername ErrInvalidReleaseID
     nilValues s ctx).

(** X12.  The four methods of the collection service validate their
    arguments before anything is sent, the user name first.  An empty
    user name gives [ErrInvalidUsername] whatever the other arguments
    are; then a release number 0 gives [ErrInvalidReleaseID] and a
    pagination whose sorting key is not one of the nine known keys
    gives [ErrInvalidSortKey].  In all these cases the value is nil and
    the state is untouched, whatever the request function of the
    service is.  A nil pagination passes the check of the sorting key. *)
Theorem collection_validation (w : World St) :
  (forall folderID releaseID pagination,
     Folder ""%string folderID w = ((None, ErrInvalidUsername), w) /\
     CollectionFolders ""%string w = ((None, ErrInvalidUsername), w) /\
     CollectionItemsByFolder ""%string folderID pagination w
     = ((None, ErrInvalidUsername), w) /\
     CollectionItemsByRelease ""%string releaseID w
     = ((None, ErrInvalidUsername), w)) /\
  (forall username,
     username <> ""%string ->
     CollectionItemsByRelease username 0 w
     = ((None, ErrInvalidReleaseID), w)) /\
  (forall username folderID p,
     username <> ""%string ->
     ~ In (Sort p) Discogs.validItemsByFolderSort ->
     CollectionItemsByFolder username folderID (Some p) w
     = ((None, ErrInvalidSortKey), w)) /\
  (forall username folderID,
     username <> ""%string ->
     CollectionItemsByFolder username folderID None w
     = Discogs.cs_request s ctx
         (Discogs.cs_url s ++ "/" ++ username ++ "/collection/folders/"
          ++ Itoa folderID ++ "/releases")%string
         (Pagination_params None) None w).
Proof.
  split; [ | split; [ | split ] ].
  - intros folderID releaseID pagination. repeat split.
  - intros username Hne. unfold Discogs.CollectionItemsByRelease.
    destruct (String.eqb_spec username ""); [ contradiction | reflexivity ].
  - intros username folderID p Hne Hsort.
    unfold Discogs.CollectionItemsByFolder.
    destruct (String.eqb_spec username ""); [ contradiction | ].
    destruct (existsb (String.eqb (Sort p)) Discogs.validItemsByFolderSort)
      eqn:Hin; [ | reflexivity ].
    apply existsb_eqb_In in Hin. contradiction.
  - intros username folderID Hne. unfold Discogs.CollectionItemsByFolder.
    destruct (String.eqb_spec username ""); [ contradiction | reflexivity ].
Qed.

End CollectionFacts.

(** ** A rate limited method over the client's [request] *)

Lemma errval_eqb_refl (e : errval) : errval_eqb e e = true.
Proof.
  induction e as [a | a e IH]; simpl.
  - apply String.eqb_refl.
  - rewrite String.eqb_refl, IH. reflexivity.
Qed.

Lemma Is_refl (e : errval) : Is (Some e) (Some e) = true.
Proof.
  destruct e as [a | a e]; simpl; rewrite ?String.eqb_refl, ?errval_eqb_refl;
    reflexivity.
Qed.

Section EndToEnd.

Variables St Context HttpClient Values Body Value : Type.
Variable sentinel : errval.
Variable ErrUnauthorized ErrInvalidUsername : error.
Variable NewRequestWithContext : Context -> string -> error.
Variable Encode : Values -> string.
Variable Do :
  HttpClient -> Context -> string -> Discogs.Header -> World St ->
  (Discogs.Response Body + errval) * World St.
Variable ReadAll : Body -> string * error.
Variable Unmarshal : string -> option Value -> option Value * error.
Variable nilValues : Values.
Variable wait : Context -> Duration -> World St -> Selected * World St.

Variable ctx : Context.
Variable client : HttpClient.
Variable header : Discogs.Header.
Variable url : string.
Variable username : string.
Variable folderID : Z.

Local Abbreviation ErrTooManyRequests := (Some sentinel).
Local Abbreviation request :=
  (Discogs.request ErrTooManyRequests ErrUnauthorized NewRequestWithContext
     Encode Do ReadAll Unmarshal).

(** The collection service of a client that feeds the rate limit record. *)
Local Abbreviation service :=
  (Discogs.newCollectionService
     (fun ctx path params resp =>
        request ctx client header Discogs.theRateLimit path params resp)
     url).

Local Abbreviation Folder :=
  (Discogs.Folder ErrInvalidUsername nilValues service ctx username folderID).

Local Abbreviation target :=
  ((url ++ "/" ++ username ++ "/collection/folders/" ++ Itoa folderID)
   ++ "?" ++ Encode nilValues)%string.

Hypothesis named : username <> ""%string.
Hypothesis well_formed : NewRequestWithContext ctx target = None.

(** [rank s] counts the answers 429 the server still has in store. *)
Variable rank : St -> nat.

Hypothesis wait_done : forall d w,
  fst (wait ctx d w) = TimerFired /\
  rank (env (snd (wait ctx d w))) = rank (env w).

Hypothesis served_429 : forall w n,
  rank (env w) = S n ->
  exists response w1,
    Do client ctx target header w = (inl response, w1) /\
    Discogs.StatusCode response = Discogs.StatusTooManyRequests /\
    rank (env w1) = n.

Hypothesis served_ok : forall w,
  rank (env w) = O ->
  exists response w1 body v,
    Do client ctx target header w = (inl response, w1) /\
    Discogs.StatusCode response = Discogs.StatusOK /\
    ReadAll (Discogs.RespBody response) = (body, None) /\
    Unmarshal body None = (v, None).

Lemma Folder_request (w : World St) :
  Folder w =
  request ctx client header Discogs.theRateLimit
    (url ++ "/" ++ username ++ "/collection/folders/" ++ Itoa folderID)%string
    nilValues None w.
Proof.
  unfold Discogs.Folder.
  destruct (String.eqb_spec username ""); [ contradiction | reflexivity ].
Qed.

Lemma Folder_rejected (w : World St) (n : nat) :
  rank (env w) = S n ->
  Is (snd (fst (Folder w))) ErrTooManyRequests = true /\
  rank (env (snd (Folder w))) = n.
Proof.
  intros Hrank. destruct (served_429 _ Hrank) as [response [w1 [HDo [Hst Hr]]]].
  rewrite Folder_request.
  erewrite request_responded by eassumption.
  cbv zeta. rewrite Hst. simpl negb. cbv iota.
  change (Discogs.StatusTooManyRequests =? Discogs.StatusUnauthorized) with false.
  change (Discogs.StatusTooManyRequests =? Discogs.StatusTooManyRequests)
    with true.
  cbv iota. simpl fst. simpl snd.
  split; [ apply Is_refl | exact Hr ].
Qed.

Lemma Folder_settled (w : World St) :
  rank (env w) = O ->
  Is (snd (fst (Folder w))) ErrTooManyRequests = false.
Proof.
  intros Hrank.
  destruct (served_ok _ Hrank) as [response [w1 [body [v [HDo [Hst [Hrd Hun]]]]]]].
  rewrite Folder_request.
  erewrite request_responded by eassumption.
  cbv zeta. rewrite Hst. simpl negb. cbv iota. rewrite Hrd, Hun. reflexivity.
Qed.

(** X13.  The rate limited [Folder] of a client whose server answers
    429 [N] times and then 200 with a body that decodes: the request is
    sent [N + 1] times, the method returns the decoded value with a nil
    error, and the rate limit record ends up with the counters of the
    last response and the time of its arrival. *)
Theorem rate_limited_Folder_retries_429 (N k : nat) (w : World St) :
  rank (env w) = N ->
  exists x v w' w0 response w1 body,
    Discogs.rate_limited_run ErrTooManyRequests wait ctx Folder (S N + k) w
    = Some x /\
    List.length (works (events x)) = S N /\
    Discogs.rate_limited ErrTooManyRequests wait ctx Folder (S N + k) w
    = Some ((v, None), w') /\
    Do client ctx target header w0 = (inl response, w1) /\
    Discogs.StatusCode response = Discogs.StatusOK /\
    ReadAll (Discogs.RespBody response) = (body, None) /\
    Unmarshal body None = (v, None) /\
    snapshot (limiter w')
    = (fst (Atoi (Discogs.Header_Get "X-Discogs-Ratelimit"
                    (Discogs.RespHeader response))),
       fst (Atoi (Discogs.Header_Get "X-Discogs-Ratelimit-Used"
                    (Discogs.RespHeader response))),
       fst (Atoi (Discogs.Header_Get "X-Discogs-Ratelimit-Remaining"
                    (Discogs.RespHeader response))),
       Now w1).
Proof.
  intros Hrank.
  destruct (@rate_limited_served St Context Value ErrTooManyRequests wait ctx
              Folder rank wait_done Folder_rejected Folder_settled N k w Hrank)
    as [x [w0 [Hrun [Hres [Hr0 [Hlen _]]]]]].
  destruct (served_ok _ Hr0) as [response [w1 [body [v [HDo [Hst [Hrd Hun]]]]]]].
  assert (HF : Folder w0
               = ((v, None),
                  Update
                    (fst (Atoi (Discogs.Header_Get "X-Discogs-Ratelimit"
                                  (Discogs.RespHeader response))))
                    (fst (Atoi (Discogs.Header_Get "X-Discogs-Ratelimit-Used"
                                  (Discogs.RespHeader response))))
                    (fst (Atoi (Discogs.Header_Get
                                  "X-Discogs-Ratelimit-Remaining"
                                  (Discogs.RespHeader response)))) w1)).
  { rewrite Folder_request.
    erewrite request_responded by eassumption.
    cbv zeta. rewrite Hst. simpl negb. cbv iota. rewrite Hrd, Hun.
    reflexivity. }
  rewrite HF in Hres.
  exists x, v. eexists. exists w0, response, w1, body.
  split; [ exact Hrun | ]. split; [ exact Hlen | ].
  split; [ exact Hres | ].
  repeat (split; [ assumption | ]). reflexivity.
Qed.

End EndToEnd.

(** ** The marketplace service of a new client *)

Section MarketPlaceFacts.

Variables St Context HttpClient Values Body Value : Type.
Variable ErrTooManyRequests ErrUnauthorized : error.
Variable NewRequestWithContext : Context -> string -> error.
Variable Encode : Values -> string.
Variable Do :
  HttpClient -> Context -> string -> Discogs.Header -> World St ->
  (Discogs.Response Body + errval) * World St.
Variable ReadAll : Body -> string * error.
Variable Unmarshal : string -> option Value -> option Value * error.
Variables DatabaseService SearchService : Type.
Variable newDatabaseService :
  Discogs.requestFunc St Context Values Value -> string -> string ->
  DatabaseService.
Variable newSearchService :
  Discogs.requestFunc St Context Values Value -> string -> SearchService.
Variable zeroClient : HttpClient.
Variable nilValues : Values.
Variable with_currency : string -> Values.

Local Abbreviation request :=
  (Discogs.request ErrTooManyRequests ErrUnauthorized NewRequestWithContext
     Encode Do ReadAll Unmarshal).
Local Abbreviation New :=
  (Discogs.New ErrTooManyRequests ErrUnauthorized NewRequestWithContext
     Encode Do ReadAll Unmarshal newDatabaseService newSearchService
     zeroClient).

(** X14.  On the marketplace service of a client made by [New],
    [ReleaseStatistics] sends its request under [/marketplace/stats/]
    with the currency that [currency] returned for the options, USD
    when the options name none, and [PriceSuggestions] sends its request
    under [/marketplace/price_suggestions/] with no parameters, the
    currency of the service not being used.  Neither checks the release
    number. *)
Theorem marketplace_requests (opts : Discogs.Options HttpClient) :
  Discogs.UserAgent opts <> ""%string ->
  snd (Discogs.currency (Discogs.Currency opts)) = None ->
  exists d opts' client header,
    New (Some opts) = (Some d, None, Some opts') /\
    (forall ctx releaseID w,
       Discogs.ReleaseStatistics with_currency (Discogs.MarketPlace d) ctx
         releaseID w
       = request ctx client header (Discogs.OptRateLimit opts)
           ((Discogs.URL opts' ++ "/marketplace")
            ++ "/stats/" ++ Itoa releaseID)%string
           (with_currency (fst (Discogs.currency (Discogs.Currency opts))))
           None w) /\
    (forall ctx releaseID w,
       Discogs.PriceSuggestions nilValues (Discogs.MarketPlace d) ctx
         releaseID w
       = request ctx client header (Discogs.OptRateLimit opts)
           ((Discogs.URL opts' ++ "/marketplace")
            ++ "/price_suggestions/" ++ Itoa releaseID)%string
           nilValues None w) /\
    (Discogs.Currency opts = ""%string ->
     fst (Discogs.currency (Discogs.Currency opts)) = "USD"%string).
Proof.
  intros Hua Hcur. unfold Discogs.New.
  destruct (String.eqb_spec (Discogs.UserAgent opts) "") as [H | _];
    [ contradiction | ].
  destruct (Discogs.currency (Discogs.Currency opts)) as [cur err] eqn:Hc.
  simpl in Hcur. subst err.
  destruct opts as [url c ua tok cl rlp]. simpl in *.
  destruct (String.eqb_spec url "") as [-> | Hurl];
    (do 4 eexists; split; [ reflexivity | ];
     split; [ reflexivity | ]; split; [ reflexivity | ];
     intros He; rewrite He in Hc; injection Hc as <-; reflexivity).
Qed.

End MarketPlaceFacts.

(** ** The concrete server meets the assumptions *)

Lemma timer_fires_done (d : Duration) (w : World nat) :
  fst (timer_fires tt d w) = TimerFired /\
  env (snd (timer_fires tt d w)) = env w.
Proof. split; reflexivity. Qed.

Lemma busy_server_429 (target : string) (w : World nat) (n : nat) :
  env w = S n ->
  exists response w1,
    busy_server tt tt target [] w = (inl response, w1) /\
    Discogs.StatusCode response = Discogs.StatusTooManyRequests /\
    env w1 = n.
Proof.
  intros H. unfold busy_server. rewrite H.
  eexists; eexists. split; [ reflexivity | split; reflexivity ].
Qed.

Lemma busy_server_ok (target : string) (w : World nat) :
  env w = O ->
  exists response w1 body v,
    busy_server tt tt target [] w = (inl response, w1) /\
    Discogs.StatusCode response = Discogs.StatusOK /\
    read_whole (Discogs.RespBody response) = (body, None) /\
    decode_as_is body None = (v, None).
Proof.
  intros H. unfold busy_server. rewrite H.
  do 4 eexists. repeat split.
Qed.

Lemma example_Folder_rejected (w : World nat) (n : nat) :
  env w = S n ->
  Is (snd (fst (example_Folder w))) (Some tooManyRequests) = true /\
  env (snd (example_Folder w)) = n.
Proof.
  intros H. destruct w as [c r e]. simpl in H. subst e. split; reflexivity.
Qed.

Lemma example_Folder_settled (w : World nat) :
  env w = O ->
  Is (snd (fst (example_Folder w))) (Some tooManyRequests) = false.
Proof.
  intros H. destruct w as [c r e]. simpl in H. subst e. reflexivity.
Qed.

(** ** The further theorems at work *)

(** The third sleep of scenario D lasts four times the minimum. *)
Lemma call_sleep_schedule_witness :
  exists x,
    call (Some tooManyRequests) tt request mock_sleep 3
      (world_at 10 10 0 0 (rejected_times 2)) = Some x /\
    nth 2 (asked (events x)) 0 = wrap64 (minimumRateLimitDelay * 2 ^ Z.of_nat 2) /\
    ((56 <= 2)%nat -> nth 2 (asked (events x)) 0 = 0).
Proof.
  eexists. split; [ vm_compute; reflexivity | ].
  apply (@call_sleep_schedule Script unit (Some tooManyRequests) tt request
           mock_sleep 3%nat (world_at 10 10 0 0 (rejected_times 2))).
  - vm_compute. reflexivity.
  - vm_compute. reflexivity.
Defined.

(** Scenario D again: two rejections and the preventive pause. *)
Lemma call_run_account_witness :
  exists x,
    call (Some tooManyRequests) tt request mock_sleep 3
      (world_at 10 10 0 0 (rejected_times 2)) = Some x /\
    exists qs,
      Forall (fun r => Is r (Some tooManyRequests) = true) qs /\
      List.length (asked (events x))
      = Nat.add (List.length qs)
          (preventive (world_at 10 10 0 0 (rejected_times 2))) /\
      ((works (events x) = qs ++ [result x] /\
        Is (result x) (Some tooManyRequests) = false /\
        pauses (events x) = asked (events x))
       \/
       (works (events x) = qs /\
        exists evs d e,
          events x = evs ++ [EvSleep d (Some e)] /\ result x = Some e)).
Proof.
  eexists. split; [ vm_compute; reflexivity | ].
  apply (@call_run_account Script unit (Some tooManyRequests) tt request
           mock_sleep 3%nat (world_at 10 10 0 0 (rejected_times 2))).
  vm_compute. reflexivity.
Defined.

Lemma Atoi_Itoa_witness : Atoi (Itoa (-42)) = (-42, None).
Proof.
  apply (proj1 (@Atoi_Itoa (-42)
                  ltac:(split; [ vm_compute; discriminate | reflexivity ]))).
Defined.

(** The default currency is accepted as it is. *)
Lemma currency_normalises_witness :
  In (fst (Discogs.currency "")) Discogs.supported_currencies /\
  Discogs.currency (fst (Discogs.currency "")) = (fst (Discogs.currency ""), None).
Proof.
  apply (proj1 (proj2 (currency_normalises ""))). reflexivity.
Defined.

(** No options at all. *)
Lemma New_validation_witness :
  Discogs.New (Some tooManyRequests) unauthorized always_well_formed no_values
    busy_server read_whole decode_as_is
    (fun _ _ _ => tt) (fun _ _ => tt) tt None
  = (None, Some Discogs.ErrUserAgentInvalid, None).
Proof.
  apply (proj1 (@New_validation nat unit unit unit string string
                  (Some tooManyRequests) unauthorized always_well_formed
                  no_values busy_server read_whole decode_as_is
                  unit unit (fun _ _ _ => tt) (fun _ _ => tt) tt None)).
  left. reflexivity.
Defined.

(** Options without a URL: the default one is written into them. *)
Lemma New_success_witness :
  exists d opts',
    Discogs.New (Some tooManyRequests) unauthorized always_well_formed no_values
      busy_server read_whole decode_as_is
      (fun _ _ _ => tt) (fun _ _ => tt) tt (Some example_options)
    = (Some d, None, Some opts') /\
    Discogs.URL opts' = Discogs.discogsAPI /\
    Discogs.cs_url (Discogs.Collection d)
    = "https://api.discogs.com/users"%string /\
    Discogs.mp_currency (Discogs.MarketPlace d) = "USD"%string.
Proof.
  destruct (@New_success nat unit unit unit string string
              (Some tooManyRequests) unauthorized always_well_formed
              no_values busy_server read_whole decode_as_is
              unit unit (fun _ _ _ => tt) (fun _ _ => tt) tt example_options
              ltac:(discriminate) eq_refl)
    as [d [opts' [client [header [HN [Hurl [_ [_ [Hcs [_ [Hcur _]]]]]]]]]]].
  exists d, opts'. split; [ exact HN | ]. split; [ exact Hurl | ].
  split; [ rewrite Hcs, Hurl; reflexivity | exact Hcur ].
Defined.

(** A 429 without rate limit headers still overwrites the record: the
    three counters read as 0, the time is that of the arrival. *)
Lemma request_feeds_rate_limit_witness :
  snapshot (limiter (snd (example_request tt example_path
                            tt None (server_at 1))))
  = (0, 0, 0, unixEpoch + Second).
Proof.
  apply (proj1 (proj1 (@request_feeds_rate_limit nat unit unit unit string
                         string (Some tooManyRequests) unauthorized
                         always_well_formed no_values busy_server read_whole
                         decode_as_is tt tt []
                         example_path tt None
                         (server_at 1) eq_refl)
                  answer_429
                  (mkWorld (unixEpoch + Second) zeroRateLimit 0%nat)
                  eq_refl)).
Defined.

(** The 200 of the server carries 60, 1 and 59. *)
Lemma request_stores_decimal_headers_witness :
  snapshot (limiter (snd (example_request tt example_path
                            tt None (server_at 0))))
  = (60, 1, 59, unixEpoch + Second).
Proof.
  apply (@request_stores_decimal_headers nat unit unit unit string
           string (Some tooManyRequests) unauthorized
           always_well_formed no_values busy_server read_whole
           decode_as_is tt tt []
           example_path tt None
           (server_at 0) eq_refl answer_200
           (mkWorld (unixEpoch + Second) zeroRateLimit 0%nat) 60 1 59
           eq_refl);
    try reflexivity; split; try reflexivity; vm_compute; discriminate.
Defined.

(** Right after a 429 without headers the next call pauses first. *)
Lemma low_remaining_makes_next_call_pause_witness :
  pause_due entry
    (snd (example_request tt example_path tt None
            (server_at 1))) = true /\
  preventive
    (snd (example_request tt example_path tt None
            (server_at 1))) = 1%nat.
Proof.
  apply (@low_remaining_makes_next_call_pause nat unit unit unit string
           string (Some tooManyRequests) unauthorized
           always_well_formed no_values busy_server read_whole
           decode_as_is tt tt []
           example_path tt None
           (server_at 1) eq_refl answer_429
           (mkWorld (unixEpoch + Second) zeroRateLimit 0%nat)).
  - reflexivity.
  - vm_compute. discriminate.
  - reflexivity.
  - reflexivity.
Defined.

(** Two answers 429 and then a 200: three invocations. *)
Lemma rate_limited_returns_last_witness :
  exists x w0,
    Discogs.rate_limited_run (Some tooManyRequests) timer_fires tt
      example_Folder (3 + 0) (server_at 2) = Some x /\
    List.length (works (events x)) = 3%nat /\
    Discogs.rate_limited (Some tooManyRequests) timer_fires tt
      example_Folder (3 + 0) (server_at 2) = Some (example_Folder w0) /\
    env w0 = O /\
    Is (snd (fst (example_Folder w0))) (Some tooManyRequests) = false.
Proof.
  exact (@rate_limited_returns_last nat unit string (Some tooManyRequests)
           timer_fires tt example_Folder (fun n => n) timer_fires_done
           example_Folder_rejected example_Folder_settled 2%nat 0%nat
           (server_at 2) eq_refl).
Defined.

(** A context that is done, met in the pause before the first attempt. *)
Lemma rate_limited_canceled_witness :
  Discogs.rate_limited (Some tooManyRequests) context_done tt example_Folder
    1 (exhausted_at 0)
  = Some ((None, Some canceled), exhausted_at 0) /\
  exists x,
    Discogs.rate_limited_run (Some tooManyRequests) context_done tt
      example_Folder 1 (exhausted_at 0) = Some x /\
    works (events x) = [].
Proof.
  apply (proj1 (@rate_limited_canceled nat unit string (Some tooManyRequests)
                  context_done tt example_Folder (exhausted_at 0) canceled));
    reflexivity.
Defined.

(** A release number 0 is refused before anything is sent. *)
Lemma collection_validation_witness :
  Discogs.CollectionItemsByRelease invalidUsername invalidReleaseID tt
    example_service tt "bob"%string 0 (server_at 0)
  = ((None, invalidReleaseID), server_at 0).
Proof.
  apply (proj1 (proj2 (@collection_validation nat unit unit string
                         invalidUsername invalidSortKey invalidReleaseID tt
                         unit (fun _ => "artist"%string) (fun _ => tt)
                         example_service tt (server_at 0)))).
  discriminate.
Defined.

(** The rate limited [Folder] against the server of the examples. *)
Lemma rate_limited_Folder_retries_429_witness :
  exists x v w' w0 response w1 body,
    Discogs.rate_limited_run (Some tooManyRequests) timer_fires tt
      example_Folder (3 + 0) (server_at 2) = Some x /\
    List.length (works (events x)) = 3%nat /\
    Discogs.rate_limited (Some tooManyRequests) timer_fires tt
      example_Folder (3 + 0) (server_at 2) = Some ((v, None), w') /\
    busy_server tt tt
      ((Discogs.discogsAPI ++ "/" ++ "bob" ++ "/collection/folders/" ++ Itoa 7)
       ++ "?" ++ no_values tt)%string [] w0 = (inl response, w1) /\
    Discogs.StatusCode response = Discogs.StatusOK /\
    read_whole (Discogs.RespBody response) = (body, None) /\
    decode_as_is body None = (v, None) /\
    snapshot (limiter w')
    = (fst (Atoi (Discogs.Header_Get "X-Discogs-Ratelimit"
                    (Discogs.RespHeader response))),
       fst (Atoi (Discogs.Header_Get "X-Discogs-Ratelimit-Used"
                    (Discogs.RespHeader response))),
       fst (Atoi (Discogs.Header_Get "X-Discogs-Ratelimit-Remaining"
                    (Discogs.RespHeader response))),
       Now w1).
Proof.
  exact (@rate_limited_Folder_retries_429 nat unit unit unit string string
           tooManyRequests unauthorized invalidUsername always_well_formed
           no_values busy_server read_whole decode_as_is tt timer_fires
           tt tt [] Discogs.discogsAPI "bob"%string 7
           ltac:(discriminate) eq_refl (fun n => n) timer_fires_done
           (busy_server_429 _) (busy_server_ok _) 2%nat 0%nat (server_at 2)
           eq_refl).
Defined.

(** Options that name no currency: statistics are asked in USD. *)
Lemma marketplace_requests_witness :
  exists d opts' client header,
    Discogs.New (Some tooManyRequests) unauthorized always_well_formed no_values
      busy_server read_whole decode_as_is
      (fun _ _ _ => tt) (fun _ _ => tt) tt (Some example_options)
    = (Some d, None, Some opts') /\
    (forall ctx releaseID w,
       Discogs.ReleaseStatistics (fun _ => tt) (Discogs.MarketPlace d) ctx
         releaseID w
       = Discogs.request (Some tooManyRequests) unauthorized
           always_well_formed no_values busy_server read_whole decode_as_is
           ctx client header (Discogs.OptRateLimit example_options)
           ((Discogs.URL opts' ++ "/marketplace")
            ++ "/stats/" ++ Itoa releaseID)%string
           tt None w) /\
    (forall ctx releaseID w,
       Discogs.PriceSuggestions tt (Discogs.MarketPlace d) ctx releaseID w
       = Discogs.request (Some tooManyRequests) unauthorized
           always_well_formed no_values busy_server read_whole decode_as_is
           ctx client header (Discogs.OptRateLimit example_options)
           ((Discogs.URL opts' ++ "/marketplace")
            ++ "/price_suggestions/" ++ Itoa releaseID)%string
           tt None w) /\
    (Discogs.Currency example_options = ""%string ->
     fst (Discogs.currency (Discogs.Currency example_options)) = "USD"%string).
Proof.
  exact (@marketplace_requests nat unit unit unit string string
           (Some tooManyRequests) unauthorized always_well_formed
           no_values busy_server read_whole decode_as_is
           unit unit (fun _ _ _ => tt) (fun _ _ => tt) tt tt (fun _ => tt)
           example_options ltac:(discriminate) eq_refl).
Defined.
